(** * SimpleMazeMDP: the episode engine of [mazemdp/mdp.py]

    A shallow embedding of the two classes of [mazemdp/mdp.py],
    [SimpleActionSpace] and [Mdp], and the properties of their methods.

    - numbers: state indices, actions used as indices, [timestep] and
      [timeout] are Python integers, here [Z]; rewards, probabilities and
      noise are IEEE binary64 values, here [spec_float] with precision 53
      and maximal exponent 1024;
    - arrays: a numpy vector is a [list]; the reward table is a list of
      rows, the transition tensor a list of lists of rows; indexing follows
      numpy and Python: a negative index counts from the end, an index out
      of range raises [IndexError];
    - effects: a method is a computation in the monad [Py], which threads a
      state and returns either a value or the exception raised; the state
      reached when an exception is raised is kept, as in Python;
    - collaborators: numpy's random state, [mazemdp.toolbox.discreteProb]
      and the plotter are interfaces (type classes). *)

From Stdlib Require Import ZArith List Bool String Lia.
From Stdlib Require Import SpecFloat.
Import ListNotations.
Local Open Scope Z_scope.

(** ** Binary64 arithmetic *)

Module F64.

Definition float := spec_float.
Definition prec : Z := 53.
Definition emax : Z := 1024.

Definition add : float -> float -> float := SFadd prec emax.
Definition mul : float -> float -> float := SFmul prec emax.
Definition div : float -> float -> float := SFdiv prec emax.
Definition eqb : float -> float -> bool := SFeqb.
Definition ltb : float -> float -> bool := SFltb.

(** [float(z)] for a Python integer [z], rounded to nearest even. *)
Definition of_Z (z : Z) : float := binary_normalize prec emax z 0 false.

Definition zero : float := S754_zero false.
Definition one : float := Eval cbv in of_Z 1.

(** A real number: neither an infinity nor a NaN. *)
Definition is_finite (x : float) : bool :=
  match x with
  | S754_zero _ | S754_finite _ _ _ => true
  | S754_infinity _ | S754_nan => false
  end.

Definition is_nan (x : float) : bool :=
  match x with S754_nan => true | _ => false end.

Definition is_zero (x : float) : bool :=
  match x with S754_zero _ => true | _ => false end.

End F64.

Abbreviation float := F64.float.

(** ** Exceptions and the [Py] monad *)

Inductive exn : Type :=
| AssertionError (msg : string)
| TypeError
| IndexError
| ValueError
| Unmodelled (what : string).
(** [Unmodelled] is not a Python exception: it marks a behaviour of the source
    that leaves the types of this model (indexing an array with [None], which
    numpy reads as [np.newaxis] and answers with an array of higher rank). *)

(** What a call produces: the exception it raises ([inl]; [lift (inl e)]
    raises [e]) or the value it returns ([inr]). *)
Definition result (A : Type) : Type := (exn + A)%type.

Definition Py (St A : Type) : Type := St -> result A * St.

Definition ret {St A} (a : A) : Py St A := fun s => (inr a, s).

Definition bind {St A B} (c : Py St A) (k : A -> Py St B) : Py St B :=
  fun s =>
    match c s with
    | (inl e, s') => (inl e, s')
    | (inr a, s') => k a s'
    end.

Definition lift {St A} (r : result A) : Py St A := fun s => (r, s).

Definition modify {St} (f : St -> St) : Py St unit := fun s => (inr tt, f s).

Declare Scope py_scope.
Delimit Scope py_scope with py.
Notation "x <- c ;; k" := (bind c (fun x => k))
  (at level 61, c at next level, right associativity) : py_scope.
Notation "c ;;; k" := (bind c (fun _ => k))
  (at level 61, right associativity) : py_scope.
Local Open Scope py_scope.

(** ** Python and numpy helpers *)

(** [a[i]] on a list or on one axis of an array. *)
Definition getitem {A} (a : list A) (i : Z) : result A :=
  let n := Z.of_nat (List.length a) in
  let j := if i <? 0 then i + n else i in
  if (j <? 0) || (n <=? j) then inl IndexError
  else match nth_error a (Z.to_nat j) with
       | Some x => inr x
       | None => inl IndexError
       end.

(** [a[i, j]] on an array of rank two or more. *)
Definition getitem2 {A} (a : list (list A)) (i j : Z) : result A :=
  match getitem a i with
  | inl e => inl e
  | inr row => getitem row j
  end.

(** [x in l] for a state that may still be [None] and a list of state
    indices. *)
Definition py_in (x : option Z) (l : list Z) : bool :=
  match x with
  | None => false
  | Some s => existsb (Z.eqb s) l
  end.

(** [np.ones(n)] *)
Definition np_ones (n : Z) : result (list float) :=
  if n <? 0 then inl ValueError else inr (repeat F64.one (Z.to_nat n)).

(** [a / k] for a vector [a] and a Python integer [k] *)
Definition np_div (a : list float) (k : Z) : list float :=
  map (fun x => F64.div x (F64.of_Z k)) a.

(** [np.arange(n)] *)
Definition np_arange (n : Z) : list Z :=
  map Z.of_nat (seq 0 (Z.to_nat n)).

(** [str + int] *)
Definition str_add_int (s : string) (n : Z) : result string := inl TypeError.

(** [assert cond, msg]: the message is evaluated only when the condition
    fails, and an exception raised while evaluating it replaces the
    [AssertionError]. *)
Definition py_assert (cond : bool) (msg : result string) : result unit :=
  if cond then inr tt
  else match msg with
       | inl e => inl e
       | inr s => inl (AssertionError s)
       end.

(** ** The collaborators *)

(** numpy's global random state: [np.random.random()] and
    [np.random.randn()]. *)
Class RandomSource : Type := {
  RNG : Type;
  random_sample : RNG -> float * RNG;
  randn : RNG -> float * RNG
}.

(** [mazemdp.toolbox.discreteProb], which [mdp.py] imports. *)
Class Toolbox `{RandomSource} : Type := {
  discreteProb : list float -> Py RNG Z
}.

(** The arguments of one call of [plotter.render]; an argument that the call
    does not give is absent. *)
Inductive agent_arg (Position : Type) : Type :=
| AgentOmitted
| AgentNone
| AgentPosition (p : Position)
| AgentState (s : Z).
Arguments AgentOmitted {Position}.
Arguments AgentNone {Position}.
Arguments AgentPosition {Position} p.
Arguments AgentState {Position} s.

Record render_call (Position : Type) : Type := {
  call_v : list float;
  call_agent_state : agent_arg Position;
  call_policy : option (list Z);
  call_title : string;
  call_mode : string
}.
Arguments call_v {Position} _.
Arguments call_agent_state {Position} _.
Arguments call_policy {Position} _.
Arguments call_title {Position} _.
Arguments call_mode {Position} _.

(** The plotter handed to the constructor. *)
Class Renderer : Type := {
  Plotter : Type;
  Handle : Type;
  Position : Type;
  plotter_render : render_call Position -> Py Plotter Handle
}.

(** ** [class SimpleActionSpace] *)

(** An action identifier: an integer, as [np.arange] produces, or a value of
    the caller's own type of labels. *)
Inductive action (Label : Type) : Type :=
| Index (i : Z)
| Named (l : Label).
Arguments Index {Label} i.
Arguments Named {Label} l.

Record SimpleActionSpace (Label : Type) : Type := {
  actions : list (action Label);
  size : Z
}.
Arguments actions {Label} _.
Arguments size {Label} _.

Section ActionSpace.
Context {Label : Type} `{Toolbox}.

(** [SimpleActionSpace.__init__(self, action_list=None, nactions=0)] *)
Definition SimpleActionSpace_init (action_list : option (list (action Label)))
    (nactions : Z) : SimpleActionSpace Label :=
  let acts :=
    match action_list with
    | None => map Index (np_arange nactions)
    | Some l =>
        if Z.of_nat (List.length l) =? 0 then map Index (np_arange nactions)
        else l
    end in
  {| actions := acts; size := Z.of_nat (List.length acts) |}.

(** [SimpleActionSpace.sample(self, prob_list=None)] *)
Definition sample (self : SimpleActionSpace Label)
    (prob_list : option (list float)) : Py RNG (action Label) :=
  prob_list <- match prob_list with
               | None =>
                   ones <- lift (np_ones (size self)) ;;
                   ret (np_div ones (size self))
               | Some p => ret p
               end ;;
  index <- discreteProb prob_list ;;
  lift (getitem (actions self) index).

End ActionSpace.

(** ** [class Mdp] *)

Record Mdp (Label : Type) `{Renderer} : Type := {
  nb_states : Z;
  terminal_states : list Z;
  action_space : SimpleActionSpace Label;
  has_state : bool;
  timeout : Z;
  timestep : Z;
  P0 : list float;
  P : list (list (list float));
  r : list (list float);
  plotter : Plotter;
  gamma : float;
  current_state : option Z;
  (** [None]: the attribute does not exist yet, [reset] creates it *)
  last_action_achieved : option bool
}.
Arguments nb_states {Label _} _.
Arguments terminal_states {Label _} _.
Arguments action_space {Label _} _.
Arguments has_state {Label _} _.
Arguments timeout {Label _} _.
Arguments timestep {Label _} _.
Arguments P0 {Label _} _.
Arguments P {Label _} _.
Arguments r {Label _} _.
Arguments plotter {Label _} _.
Arguments gamma {Label _} _.
Arguments current_state {Label _} _.
Arguments last_action_achieved {Label _} _.

(** The diagnostics dictionary that [step] returns. *)
Record step_info : Type := {
  state_transition_probabilities : list float;
  reward_noise_value : float
}.

(** The list [[next_state, reward, done, info]] that [step] returns. *)
Record step_result : Type := {
  res_next_state : Z;
  res_reward : float;
  res_done : bool;
  res_info : step_info
}.

Section Engine.
Context {Label : Type} `{Renderer} `{Toolbox}.

(** What a method of an engine runs on: the object and numpy's random
    state. *)
Record World : Type := {
  self : Mdp Label;
  np_random : RNG
}.

Definition set_current_state (x : option Z) (m : Mdp Label) : Mdp Label :=
  {| nb_states := nb_states m; terminal_states := terminal_states m;
     action_space := action_space m; has_state := has_state m;
     timeout := timeout m; timestep := timestep m; P0 := P0 m; P := P m;
     r := r m; plotter := plotter m; gamma := gamma m;
     current_state := x;
     last_action_achieved := last_action_achieved m |}.

Definition set_timestep (t : Z) (m : Mdp Label) : Mdp Label :=
  {| nb_states := nb_states m; terminal_states := terminal_states m;
     action_space := action_space m; has_state := has_state m;
     timeout := timeout m; timestep := t; P0 := P0 m; P := P m;
     r := r m; plotter := plotter m; gamma := gamma m;
     current_state := current_state m;
     last_action_achieved := last_action_achieved m |}.

Definition set_last_action_achieved (b : bool) (m : Mdp Label) : Mdp Label :=
  {| nb_states := nb_states m; terminal_states := terminal_states m;
     action_space := action_space m; has_state := has_state m;
     timeout := timeout m; timestep := timestep m; P0 := P0 m; P := P m;
     r := r m; plotter := plotter m; gamma := gamma m;
     current_state := current_state m;
     last_action_achieved := Some b |}.

Definition set_plotter (p : Plotter) (m : Mdp Label) : Mdp Label :=
  {| nb_states := nb_states m; terminal_states := terminal_states m;
     action_space := action_space m; has_state := has_state m;
     timeout := timeout m; timestep := timestep m; P0 := P0 m; P := P m;
     r := r m; plotter := p; gamma := gamma m;
     current_state := current_state m;
     last_action_achieved := last_action_achieved m |}.

(** Reading an attribute of [self], assigning to one, and running a
    computation on the random state or on the plotter. *)
Definition attr {A} (f : Mdp Label -> A) : Py World A :=
  fun w => (inr (f (self w)), w).

Definition assign (f : Mdp Label -> Mdp Label) : Py World unit :=
  modify (fun w => {| self := f (self w); np_random := np_random w |}).

Definition with_random {A} (c : Py RNG A) : Py World A :=
  fun w =>
    let (x, g) := c (np_random w) in
    (x, {| self := self w; np_random := g |}).

Definition with_plotter {A} (c : Py Plotter A) : Py World A :=
  fun w =>
    let (x, p) := c (plotter (self w)) in
    (x, {| self := set_plotter p (self w); np_random := np_random w |}).

(** [Mdp.__init__]; [terminal_states] is [None] when the caller leaves it
    out. *)
Definition Mdp_init (nb_states : Z) (action_space : SimpleActionSpace Label)
    (start_distribution : list float)
    (transition_matrix : list (list (list float)))
    (reward_matrix : list (list float)) (plotter : Plotter) (gamma : float)
    (terminal_states : option (list Z)) (timeout : Z) (has_state : bool)
    : result (Mdp Label) :=
  match py_assert (10 <? timeout)
          (str_add_int "timeout too short:" timeout) with
  | inl e => inl e
  | inr _ =>
      let terminal_states :=
        match terminal_states with None => [] | Some l => l end in
      inr {| nb_states := nb_states; terminal_states := terminal_states;
             action_space := action_space; has_state := has_state;
             timeout := timeout; timestep := 0; P0 := start_distribution;
             P := transition_matrix; r := reward_matrix; plotter := plotter;
             gamma := gamma; current_state := None;
             last_action_achieved := None |}
  end.

(** The defaults of the optional parameters of [Mdp.__init__]: [gamma=0.9],
    [timeout=50], [has_state=True]. *)
Definition default_gamma : float := S754_finite false 8106479329266893 (-53).
Definition default_timeout : Z := 50.
Definition default_has_state : bool := true.

(** [Mdp.reset(self, uniform=False)]; it returns [self.current_state]. *)
Definition reset (uniform : bool) : Py World (option Z) :=
  s <- (if uniform then
          n <- attr nb_states ;;
          ones <- lift (np_ones (n - 1)) ;;
          with_random (discreteProb (np_div ones (n - 1)))
        else
          p0 <- attr P0 ;;
          with_random (discreteProb p0)) ;;
  assign (set_current_state (Some s)) ;;;
  assign (set_timestep 0) ;;;
  assign (set_last_action_achieved false) ;;;
  attr current_state.

(** [Mdp.done(self)] *)
Definition done : Py World bool :=
  cs <- attr current_state ;;
  ts <- attr terminal_states ;;
  if py_in cs ts then ret true
  else
    t <- attr timestep ;;
    tmax <- attr timeout ;;
    ret (t =? tmax).

(** [self.r[self.current_state, u]] and [self.P[self.current_state, u, :]];
    before the first [reset] the state is [None]. That branch is a limit of
    this model, not what the source does: numpy reads [None] as
    [np.newaxis] and the call goes on with arrays of higher rank. Properties
    of [step] that depend on it are stated for an engine with a state. *)
Definition at_state {A} (a : list (list A)) (cs : option Z) (u : Z)
    : result A :=
  match cs with
  | None => inl (Unmodelled "array indexed with None")
  | Some s => getitem2 a s u
  end.

(** [Mdp.step(self, u, deviation=0)] *)
Definition step (u : Z) (deviation : float) : Py World step_result :=
  z <- with_random (fun g => let (x, g') := randn g in (inr x, g')) ;;
  let noise := F64.mul deviation z in
  cs <- attr current_state ;;
  rtab <- attr r ;;
  rsu <- lift (at_state rtab cs u) ;;
  let reward := F64.add rsu noise in
  ptab <- attr P ;;
  row <- lift (at_state ptab cs u) ;;
  next_state <- with_random (discreteProb row) ;;
  t <- attr timestep ;;
  assign (set_timestep (t + 1)) ;;;
  cs <- attr current_state ;;
  ptab <- attr P ;;
  row' <- lift (at_state ptab cs u) ;;
  let info := {| state_transition_probabilities := row';
                 reward_noise_value := noise |} in
  assign (set_current_state (Some next_state)) ;;;
  d <- done ;;
  ret {| res_next_state := next_state; res_reward := reward;
         res_done := d; res_info := info |}.

(** [Mdp.render(self, v=None, policy=None, agent_pos=None, title, mode)] *)
Definition render (v : option (list float)) (policy : option (list Z))
    (agent_pos : option Position) (title mode : string) : Py World Handle :=
  let v := match v with None => [] | Some a => a end in
  let policy := match policy with None => [] | Some a => a end in
  hs <- attr has_state ;;
  if negb hs then
    with_plotter (plotter_render
      {| call_v := v; call_agent_state := AgentNone; call_policy := None;
         call_title := title; call_mode := mode |})
  else
    match agent_pos with
    | Some pos =>
        with_plotter (plotter_render
          {| call_v := v; call_agent_state := AgentPosition pos;
             call_policy := None; call_title := title; call_mode := mode |})
    | None =>
        cs <- attr current_state ;;
        match cs with
        | Some s =>
            with_plotter (plotter_render
              {| call_v := v; call_agent_state := AgentState s;
                 call_policy := Some policy; call_title := title;
                 call_mode := mode |})
        | None =>
            with_plotter (plotter_render
              {| call_v := v; call_agent_state := AgentOmitted;
                 call_policy := None; call_title := title;
                 call_mode := mode |})
        end
    end.

(** The defaults of [render]: [title="No Title"], [mode="legacy"]. *)
Definition default_title : string := "No Title".
Definition default_mode : string := "legacy".

(** The engine that a returning [step] leaves behind, with the three
    assignments composed, and the one that a returning [reset] leaves. *)
Definition stepped (m : Mdp Label) (next_state : Z) : Mdp Label :=
  set_current_state (Some next_state) (set_timestep (timestep m + 1) m).

Definition restarted (m : Mdp Label) (s : Z) : Mdp Label :=
  set_last_action_achieved false
    (set_timestep 0 (set_current_state (Some s) m)).

(** A caller's loop: for each pair of an action and a deviation, one call
    of [step] followed by one call of [done()], collecting what both
    return; an exception ends the loop. *)
Fixpoint episode (calls : list (Z * float))
    : Py World (list (step_result * bool)) :=
  match calls with
  | [] => ret []
  | (u, deviation) :: rest =>
      x <- step u deviation ;;
      d <- done ;;
      xs <- episode rest ;;
      ret ((x, d) :: xs)
  end.

End Engine.

(** ** Instances of the collaborators *)

(** A random source that replays a tape of values drawn beforehand; an
    exhausted tape gives [0.0]. *)
Module Tape.

Definition next (g : list float) : float * list float :=
  match g with
  | [] => (F64.zero, [])
  | x :: g' => (x, g')
  end.

#[global] Instance source : RandomSource :=
  {| RNG := list float; random_sample := next; randn := next |}.

End Tape.

(** Modelled from the spec: [mazemdp/toolbox.py], which defines
    [discreteProb], is not among the sources. The spec, section 4.1: draw a
    uniform value [u] in [0,1); accumulate the weights in index order;
    return the first index where the cumulative sum exceeds [u]; return the
    last index if the accumulated sum never strictly exceeds [u]. *)
Fixpoint first_exceeding (u acc : float) (i : Z) (weights : list float) : Z :=
  match weights with
  | [] => i - 1
  | w :: rest =>
      let acc' := F64.add acc w in
      if F64.ltb u acc' then i else first_exceeding u acc' (i + 1) rest
  end.

Definition inverse_cdf `{RandomSource} (weights : list float) : Py RNG Z :=
  fun g =>
    let (u, g') := random_sample g in
    (inr (first_exceeding u F64.zero 0 weights), g').

#[export] Instance spec_toolbox `{RandomSource} : Toolbox :=
  {| discreteProb := inverse_cdf |}.

(** A plotter that records the calls it receives and answers with their
    count; positions are grid coordinates. *)
#[export] Instance recorder : Renderer :=
  {| Plotter := list (render_call (Z * Z));
     Handle := nat;
     Position := (Z * Z)%type;
     plotter_render := fun call log =>
       (inr (List.length log), log ++ [call]) |}.

(** ** A small maze for concrete runs

    Three cells in a row, the last one terminal; action [0] stays, action
    [1] moves right. *)
Module Corridor.

Definition half : float := S754_finite false 4503599627370496 (-53).
Definition minus_one : float := S754_finite true 4503599627370496 (-52).

Definition onehot (k : nat) : list float :=
  map (fun i => if Nat.eqb i k then F64.one else F64.zero) [0; 1; 2]%nat.

Definition transitions : list (list (list float)) :=
  [ [onehot 0; onehot 1]; [onehot 1; onehot 2]; [onehot 2; onehot 2] ].

Definition rewards : list (list float) :=
  [ [minus_one; minus_one]; [minus_one; F64.one]; [F64.zero; F64.zero] ].

Definition space : SimpleActionSpace string :=
  SimpleActionSpace_init (Some [Named "stay"; Named "right"]%string) 0.

Definition engine (timeout : Z) : result (Mdp string) :=
  Mdp_init 3 space (onehot 0) transitions rewards [] default_gamma
    (Some [2]) timeout default_has_state.

(** The engine with [timeout=11], before any [reset]. *)
Definition fresh : Mdp string :=
  {| nb_states := 3; terminal_states := [2]; action_space := space;
     has_state := true; timeout := 11; timestep := 0; P0 := onehot 0;
     P := transitions; r := rewards; plotter := [];
     gamma := default_gamma; current_state := None;
     last_action_achieved := None |}.

(** A tape of [n] draws, all [0.5], and the world before the first
    [reset]. *)
Definition tape (n : nat) : @RNG Tape.source := repeat half n.
Definition initial : World := {| self := fresh; np_random := tape 40 |}.

(** After [reset()], and after [n] further calls [step(0)] each followed
    by [done()]. *)
Definition started : World := snd (reset false initial).
Definition stay (n : nat) : list (Z * float) := repeat (0, F64.zero) n.
Definition trace (n : nat) : list (step_result * bool) :=
  match fst (episode (stay n) started) with
  | inr xs => xs
  | inl _ => []
  end.
Definition after (n : nat) : World := snd (episode (stay n) started).

End Corridor.

(** ** The other methods of [Mdp]: [new_render] and [save_fig] *)

(** The two other methods of the plotter that the engine calls. *)
Class Figures `{Renderer} : Type := {
  Figure : Type;
  Saved : Type;
  plotter_new_render : string -> string -> Py Plotter Figure;
  plotter_save_fig : string -> Py Plotter Saved
}.

Section Plots.
Context {Label : Type} `{Figures} `{RandomSource}.

(** [Mdp.new_render(self, title, mode="human")] *)
Definition new_render (title mode : string)
    : Py (World (Label := Label)) Figure :=
  with_plotter (plotter_new_render title mode).

Definition default_new_render_mode : string := "human".

(** [Mdp.save_fig(self, title)]: the method has no [return], so it answers
    [None] whatever the plotter answers. *)
Definition save_fig (title : string) : Py (World (Label := Label)) unit :=
  with_plotter (plotter_save_fig title) ;;; ret tt.

End Plots.

(** The recording plotter opens figure number [n] when it has drawn [n]
    times, and saves nothing. *)
#[export] Instance recorder_figures : Figures (H := recorder) :=
  {| Figure := nat;
     Saved := unit;
     plotter_new_render := fun _ _ log => (inr (List.length log), log);
     plotter_save_fig := fun _ log => (inr tt, log) |}.

(** ** More concrete engines *)
Module Rooms.

(** The corridor engine with another number of states declared. *)
Definition declared (n : Z) : World :=
  {| self :=
       {| nb_states := n; terminal_states := [2];
          action_space := Corridor.space; has_state := true; timeout := 11;
          timestep := 0; P0 := Corridor.onehot 0; P := Corridor.transitions;
          r := Corridor.rewards; plotter := []; gamma := default_gamma;
          current_state := None; last_action_achieved := None |};
     np_random := Corridor.tape 40 |}.

(** The corridor engine in the middle of another episode: other terminal
    states, timeout and step counter, same tables and state. *)
Definition elsewhere : World :=
  {| self :=
       {| nb_states := 3; terminal_states := [1];
          action_space := Corridor.space; has_state := false; timeout := 20;
          timestep := 7; P0 := Corridor.onehot 0; P := Corridor.transitions;
          r := Corridor.rewards; plotter := []; gamma := default_gamma;
          current_state := Some 0; last_action_achieved := Some false |};
     np_random := Corridor.tape 39 |}.

(** The corridor engine after twelve steps, with a rewound tape. *)
Definition midway : World :=
  {| self := self (Corridor.after 12); np_random := Corridor.tape 40 |}.

(** An action space given by a count, and an empty one. *)
Definition counted : SimpleActionSpace string := SimpleActionSpace_init None 4.
Definition nobody : SimpleActionSpace string :=
  SimpleActionSpace_init (Some []) 0.

End Rooms.

(** ** Properties *)

(** Two engines in the same episode state. *)
Definition same_episode {Label : Type} `{Renderer} (m m' : Mdp Label) : Prop :=
  current_state m' = current_state m /\ timestep m' = timestep m /\
  last_action_achieved m' = last_action_achieved m.

(** What a call of [step] produced, without the [done] flag. *)
Definition transition_of (x : result step_result)
    : result (Z * float * step_info) :=
  match x with
  | inl e => inl e
  | inr x => inr (res_next_state x, res_reward x, res_info x)
  end.


(** The completion test on the fields of an engine: the state is a terminal
    state, or the step counter equals the timeout. *)
Definition episode_over {Label : Type} `{Renderer} (m : Mdp Label) : bool :=
  py_in (current_state m) (terminal_states m) || (timestep m =? timeout m).

(** Two engines with the same configuration: every field but the episode
    state ([current_state], [timestep]). *)
Definition same_configuration {Label : Type} `{Renderer} (m m' : Mdp Label)
    : Prop :=
  P m' = P m /\ r m' = r m /\ P0 m' = P0 m /\ nb_states m' = nb_states m /\
  gamma m' = gamma m /\ terminal_states m' = terminal_states m /\
  timeout m' = timeout m /\ action_space m' = action_space m /\
  has_state m' = has_state m.

(** The vector [np.ones(n) / n] has [n] entries, each [1.0 / n]. *)
Definition uniform_weights (n : Z) : list float :=
  repeat (F64.div F64.one (F64.of_Z n)) (Z.to_nat n).

(** The sampler keeps its contract on the vector [p]: whatever the random
    state, it returns an index of [p]. *)
Definition sampler_in_range `{Toolbox} (p : list float) : Prop :=
  forall g, exists i g',
    discreteProb p g = (inr i, g') /\ 0 <= i < Z.of_nat (List.length p).


Example corridor_engine_11 : Corridor.engine 11 = inr Corridor.fresh.
Proof. reflexivity. Qed.

Section PythonFacts.
Context {A : Type}.

Lemma getitem_in_range (a : list A) (i : Z) :
  0 <= i < Z.of_nat (List.length a) ->
  exists x, getitem a i = inr x /\ nth_error a (Z.to_nat i) = Some x.
Proof.
  intros Hi. unfold getitem.
  destruct (Z.ltb_spec i 0) as [Hneg | _]; [lia |].
  destruct (Z.ltb_spec i 0) as [Hneg | _]; [lia |].
  destruct (Z.leb_spec (Z.of_nat (List.length a)) i) as [Hbig | _]; [lia |].
  simpl.
  destruct (nth_error a (Z.to_nat i)) as [x |] eqn:Hx.
  - exists x. split; reflexivity.
  - apply nth_error_None in Hx. lia.
Qed.

Lemma getitem_In (a : list A) (i : Z) (x : A) :
  getitem a i = inr x -> In x a.
Proof.
  unfold getitem.
  destruct ((_ <? 0) || (_ <=? _)); [discriminate |].
  destruct (nth_error a _) as [y |] eqn:Hy; [| discriminate].
  intros Heq. injection Heq as <-. eapply nth_error_In. exact Hy.
Qed.

End PythonFacts.

Lemma py_in_Some (s : Z) (l : list Z) : py_in (Some s) l = true <-> In s l.
Proof.
  simpl. rewrite existsb_exists. split.
  - intros [x [Hin Heq]]. apply Z.eqb_eq in Heq. subst x. exact Hin.
  - intros Hin. exists s. split; [exact Hin | apply Z.eqb_refl].
Qed.

Lemma visits_outside (ts : list Z) (xs : list (step_result * bool)) :
  forallb (fun xd => negb (py_in (Some (res_next_state (fst xd))) ts)) xs
    = true ->
  forall x d, In (x, d) xs -> ~ In (res_next_state x) ts.
Proof.
  intros Hall x d Hin Hterm. rewrite forallb_forall in Hall.
  specialize (Hall _ Hin). apply py_in_Some in Hterm.
  simpl in Hall. simpl in Hterm. rewrite Hterm in Hall. discriminate.
Qed.

Lemma np_div_ones (n : Z) :
  0 <= n -> exists ones, np_ones n = inr ones /\ np_div ones n = uniform_weights n.
Proof.
  intros Hn. unfold np_ones.
  destruct (Z.ltb_spec n 0) as [Hneg | _]; [lia |].
  eexists. split; [reflexivity |].
  unfold np_div, uniform_weights.
  induction (Z.to_nat n) as [| k IH]; simpl; [reflexivity | now rewrite IH].
Qed.

Lemma uniform_weights_length (n : Z) :
  0 <= n -> Z.of_nat (List.length (uniform_weights n)) = n.
Proof.
  intros Hn. unfold uniform_weights. rewrite repeat_length. lia.
Qed.

Section FloatFacts.

Lemma mul_zero_finite (d z : float) :
  F64.is_zero d = true -> F64.is_finite z = true ->
  F64.is_zero (F64.mul d z) = true.
Proof. destruct d, z; simpl; intros; congruence. Qed.

Lemma add_zero_eqb (x n : float) :
  F64.is_zero n = true -> F64.is_nan x = false ->
  F64.eqb (F64.add x n) x = true.
Proof.
  destruct n as [sn | | |]; simpl; try discriminate. intros _.
  destruct x as [sx | sx | | sx mx ex]; simpl; try discriminate; intros _.
  - destruct sx, sn; reflexivity.
  - destruct sx; reflexivity.
  - unfold F64.eqb, SFeqb. simpl.
    rewrite Z.compare_refl.
    change (Pos.compare_cont Eq mx mx) with (Pos.compare mx mx).
    rewrite Pos.compare_refl. destruct sx; reflexivity.
Qed.

Lemma add_zero_same (x n : float) :
  F64.is_zero n = true -> F64.is_zero x = false -> F64.add x n = x.
Proof.
  destruct n as [sn | | |]; simpl; try discriminate. intros _.
  destruct x as [sx | sx | | sx mx ex]; simpl; try discriminate; reflexivity.
Qed.

End FloatFacts.

(** ** How the methods run *)

Section EngineFacts.
Context {Label : Type} `{Renderer} `{Toolbox}.
Local Abbreviation World := (@World Label _ _).

(** [done()] reads the engine and leaves the world as it was. *)
Lemma done_run (w : World) : done w = (inr (episode_over (self w)), w).
Proof.
  unfold done, episode_over, bind, attr, ret. simpl.
  destruct (py_in _ _); reflexivity.
Qed.

(** The four ways a call of [step] can go: the two table lookups or the
    sampler raise, after the random state moved and before the engine is
    touched, or the call returns. *)
Lemma step_run (u : Z) (deviation : float) (w : World) :
  step u deviation w =
  let m := self w in
  let (z, g1) := randn (np_random w) in
  match at_state (r m) (current_state m) u with
  | inl e => (inl e, {| self := m; np_random := g1 |})
  | inr rsu =>
      match at_state (P m) (current_state m) u with
      | inl e => (inl e, {| self := m; np_random := g1 |})
      | inr row =>
          match discreteProb row g1 with
          | (inl e, g2) => (inl e, {| self := m; np_random := g2 |})
          | (inr next_state, g2) =>
              (inr {| res_next_state := next_state;
                      res_reward := F64.add rsu (F64.mul deviation z);
                      res_done := episode_over (stepped m next_state);
                      res_info :=
                        {| state_transition_probabilities := row;
                           reward_noise_value := F64.mul deviation z |} |},
               {| self := stepped m next_state; np_random := g2 |})
          end
      end
  end.
Proof.
  unfold step, bind, with_random, attr, lift, assign, modify, ret. simpl.
  destruct (randn (np_random w)) as [z g1]. simpl.
  destruct (at_state (r (self w)) _ u) as [e | rsu]; [reflexivity |].
  destruct (at_state (P (self w)) _ u) as [e | row] eqn:Hrow; simpl;
    [reflexivity |].
  destruct (discreteProb row g1) as [[e | next_state] g2]; simpl;
    [reflexivity |].
  rewrite Hrow. simpl.
  rewrite done_run. reflexivity.
Qed.

(** What a returning call of [step] did. *)
Lemma step_returns (u : Z) (deviation : float) (w w' : World)
    (x : step_result) :
  step u deviation w = (inr x, w') ->
  self w' = stepped (self w) (res_next_state x) /\
  res_done x = episode_over (self w').
Proof.
  rewrite step_run. simpl.
  destruct (randn _) as [z g1].
  destruct (at_state (r _) _ _); [discriminate |].
  destruct (at_state (P _) _ _); [discriminate |].
  destruct (discreteProb _ _) as [[e | ns] g2]; [discriminate |].
  intros Heq. injection Heq as <- <-. split; reflexivity.
Qed.

(** Every call of [step], returning or raising, keeps the configuration,
    the plotter and the flag that [reset] clears. *)
Lemma step_frame (u : Z) (deviation : float) (w : World) :
  let m' := self (snd (step u deviation w)) in
  same_configuration (self w) m' /\ plotter m' = plotter (self w) /\
  last_action_achieved m' = last_action_achieved (self w).
Proof.
  rewrite step_run. simpl.
  destruct (randn _) as [z g1].
  destruct (at_state (r _) _ _);
    [simpl; unfold same_configuration; tauto |].
  destruct (at_state (P _) _ _);
    [simpl; unfold same_configuration; tauto |].
  destruct (discreteProb _ _) as [[e | ns] g2];
    simpl; unfold same_configuration; simpl; tauto.
Qed.

(** How [reset] runs once the sampler has answered. *)
Lemma reset_P0_run (w : World) :
  reset false w =
  match discreteProb (P0 (self w)) (np_random w) with
  | (inl e, g) => (inl e, {| self := self w; np_random := g |})
  | (inr s, g) => (inr (Some s), {| self := restarted (self w) s; np_random := g |})
  end.
Proof.
  unfold reset, bind, with_random, attr, lift, assign, modify, ret. simpl.
  destruct (discreteProb _ _) as [[e | s] g]; reflexivity.
Qed.

Lemma reset_uniform_run (w : World) :
  0 <= nb_states (self w) - 1 ->
  reset true w =
  match discreteProb (uniform_weights (nb_states (self w) - 1)) (np_random w) with
  | (inl e, g) => (inl e, {| self := self w; np_random := g |})
  | (inr s, g) => (inr (Some s), {| self := restarted (self w) s; np_random := g |})
  end.
Proof.
  intros Hn. destruct (np_div_ones _ Hn) as [ones [Hones Hdiv]].
  unfold reset, bind, with_random, attr, lift, assign, modify, ret. simpl.
  rewrite Hones, Hdiv.
  destruct (discreteProb _ _) as [[e | s] g]; reflexivity.
Qed.

(** What a returning call of [reset] did, whatever [uniform] is. *)
Lemma reset_returns (uniform : bool) (w w' : World) (v : option Z) :
  reset uniform w = (inr v, w') ->
  exists s, v = Some s /\ self w' = restarted (self w) s.
Proof.
  destruct uniform.
  - destruct (Z.le_gt_cases 0 (nb_states (self w) - 1)) as [Hn | Hn].
    + rewrite (reset_uniform_run _ Hn).
      destruct (discreteProb _ _) as [[e | s] g]; [discriminate |].
      intros Heq. injection Heq as <- <-. exists s. split; reflexivity.
    + unfold reset, bind, attr, lift, np_ones. simpl.
      destruct (Z.ltb_spec (nb_states (self w) - 1) 0); [discriminate | lia].
  - rewrite reset_P0_run.
    destruct (discreteProb _ _) as [[e | s] g]; [discriminate |].
    intros Heq. injection Heq as <- <-. exists s. split; reflexivity.
Qed.

(** The caller's loop: the [k]-th call (from 0) of a returning loop started
    at step counter [t] reports the completion test at counter [t + k + 1],
    and [done()] after it agrees. *)
Lemma episode_flags (calls : list (Z * float)) :
  forall (w w' : World) (xs : list (step_result * bool)),
    episode calls w = (inr xs, w') ->
    List.length xs = List.length calls /\
    forall (k : nat) (x : step_result) (d : bool),
      nth_error xs k = Some (x, d) ->
      d = res_done x /\
      res_done x =
        py_in (Some (res_next_state x)) (terminal_states (self w)) ||
        (timestep (self w) + Z.of_nat k + 1 =? timeout (self w)).
Proof.
  induction calls as [| [u dev] rest IH]; intros w w' xs.
  - simpl. unfold ret. intros Heq. injection Heq as <- <-.
    split; [reflexivity |]. intros [| k] x d; discriminate.
  - simpl. unfold bind at 1.
    destruct (step u dev w) as [[e | x0] w1] eqn:Hstep; [discriminate |].
    unfold bind at 1. rewrite done_run.
    unfold bind at 1.
    destruct (episode rest w1) as [[e | xs1] w2] eqn:Hrest; [discriminate |].
    unfold ret. intros Heq. injection Heq as <- <-.
    destruct (step_returns _ _ _ _ _ Hstep) as [Hself Hdone].
    destruct (IH _ _ _ Hrest) as [Hlen Hflags].
    split; [simpl; now rewrite Hlen |].
    intros [| k] x d Hk.
    + simpl in Hk. injection Hk as <- <-.
      split; [symmetry; exact Hdone |].
      rewrite Hdone, Hself. unfold episode_over. simpl.
      now rewrite Z.add_0_r.
    + simpl in Hk. destruct (Hflags _ _ _ Hk) as [Hd Hx].
      split; [exact Hd |].
      rewrite Hx, Hself. simpl.
      replace (timestep (self w) + 1 + Z.of_nat k + 1)
        with (timestep (self w) + Z.pos (Pos.of_succ_nat k) + 1) by lia.
      reflexivity.
Qed.

End EngineFacts.

(** ** The episode state machine: [step] and [done] *)

Section StepClaims.
Context {Label : Type} `{Renderer} `{Toolbox}.
Local Abbreviation World := (@World Label _ _).

(** C1: a call of [step] on an engine that has been reset (its state is an
    index [s]), with an action [u] for which both tables have an entry, and
    for which the sampler answers [next_state], returns; it leaves
    [timestep] one higher and [current_state] equal to the sampled
    [next_state], and the [done] value it returns is what [done()] answers
    on the engine it leaves: true exactly when the new state is a terminal
    state or the new [timestep] equals [timeout]. *)
Theorem step_done_on_updated_engine (w : World) (u : Z) (deviation : float)
    (s next_state : Z) (rsu z : float) (row : list float) (g1 g2 : RNG) :
  current_state (self w) = Some s ->
  getitem2 (r (self w)) s u = inr rsu ->
  getitem2 (P (self w)) s u = inr row ->
  randn (np_random w) = (z, g1) ->
  discreteProb row g1 = (inr next_state, g2) ->
  exists x w',
    step u deviation w = (inr x, w') /\
    res_next_state x = next_state /\
    timestep (self w') = timestep (self w) + 1 /\
    current_state (self w') = Some next_state /\
    done w' = (inr (res_done x), w') /\
    (res_done x = true <->
       In next_state (terminal_states (self w')) \/
       timestep (self w') = timeout (self w')).
Proof.
  intros Hcs Hr HP Hz Hns.
  rewrite step_run. simpl. rewrite Hz, Hcs. simpl. rewrite Hr, HP, Hns.
  eexists. eexists. split; [reflexivity |]. simpl.
  repeat split; try reflexivity.
  - rewrite done_run. reflexivity.
  - unfold episode_over. simpl. intros Hd.
    apply orb_true_iff in Hd. destruct Hd as [Hd | Hd].
    + left. apply (py_in_Some next_state). exact Hd.
    + right. apply Z.eqb_eq. exact Hd.
  - unfold episode_over. simpl. intros [Hin | Ht]; apply orb_true_iff.
    + left. apply (py_in_Some next_state). exact Hin.
    + right. apply Z.eqb_eq. exact Ht.
Qed.

(** C2: after a [reset] and a returning sequence of [step] calls none of
    which reaches a terminal state, the [k]-th call (counted from 1) reports
    done, and [done()] right after it answers true, exactly when [k] is the
    timeout: false for the first [timeout - 1] calls, true on call number
    [timeout]. This holds whatever the timeout is, so for every timeout
    above 10. *)
Theorem done_exactly_at_timeout (w0 w1 w2 : World) (uniform : bool)
    (v : option Z) (calls : list (Z * float))
    (xs : list (step_result * bool)) :
  reset uniform w0 = (inr v, w1) ->
  episode calls w1 = (inr xs, w2) ->
  (forall x d, In (x, d) xs ->
     ~ In (res_next_state x) (terminal_states (self w0))) ->
  List.length xs = List.length calls /\
  forall (k : nat) (x : step_result) (d : bool),
    nth_error xs k = Some (x, d) ->
    res_done x = d /\
    (d = true <-> Z.of_nat k + 1 = timeout (self w0)).
Proof.
  intros Hreset Hrun Hfree.
  destruct (reset_returns _ _ _ _ Hreset) as [s [_ Hself]].
  destruct (episode_flags _ _ _ _ Hrun) as [Hlen Hflags].
  split; [exact Hlen |].
  intros k x d Hk. destruct (Hflags _ _ _ Hk) as [Hd Hx].
  assert (Hout : py_in (Some (res_next_state x)) (terminal_states (self w1))
                 = false).
  { apply not_true_is_false. intros Hin. apply py_in_Some in Hin.
    apply (Hfree x d); [eapply nth_error_In; exact Hk |].
    rewrite Hself in Hin. exact Hin. }
  rewrite Hout, Hself in Hx. simpl in Hx.
  split; [now symmetry |]. rewrite Hd, Hx.
  rewrite Z.eqb_eq. split; lia.
Qed.

(** C4: with a zero [deviation], a call of [step] from state [s] with a
    valid action [u] injects a noise that is a zero, and returns a reward
    equal ([==]) to the table entry [r[s, u]]; the reward is the very entry
    when the entry is not itself a zero (a zero entry may come back with the
    other sign). The entry is a number (not NaN) and the normal draw is
    finite. *)
Theorem step_zero_deviation_reward (w : World) (u : Z) (deviation : float)
    (s next_state : Z) (rsu z : float) (row : list float) (g1 g2 : RNG) :
  F64.is_zero deviation = true ->
  current_state (self w) = Some s ->
  getitem2 (r (self w)) s u = inr rsu ->
  F64.is_nan rsu = false ->
  getitem2 (P (self w)) s u = inr row ->
  randn (np_random w) = (z, g1) ->
  F64.is_finite z = true ->
  discreteProb row g1 = (inr next_state, g2) ->
  exists x w',
    step u deviation w = (inr x, w') /\
    F64.is_zero (reward_noise_value (res_info x)) = true /\
    F64.eqb (res_reward x) rsu = true /\
    (F64.is_zero rsu = false -> res_reward x = rsu).
Proof.
  intros Hdev Hcs Hr Hnan HP Hz Hfin Hns.
  rewrite step_run. simpl. rewrite Hz, Hcs. simpl. rewrite Hr, HP, Hns.
  eexists. eexists. split; [reflexivity |]. simpl.
  pose proof (mul_zero_finite _ _ Hdev Hfin) as Hnoise.
  split; [exact Hnoise |]. split.
  - apply add_zero_eqb; assumption.
  - intros Hnz. apply add_zero_same; assumption.
Qed.

(** C9: a call of [step], whether it returns or raises, leaves the
    transition tensor, the reward table, the start distribution,
    [nb_states], [gamma], the terminal states, the timeout, the action space
    and [has_state] as they were, and the plotter and the flag of [reset]
    too: of the engine it changes [current_state] and [timestep] only. A
    call of [done] changes nothing at all. *)
Theorem step_and_done_frame (w : World) (u : Z) (deviation : float) :
  same_configuration (self w) (self (snd (step u deviation w))) /\
  plotter (self (snd (step u deviation w))) = plotter (self w) /\
  last_action_achieved (self (snd (step u deviation w))) =
    last_action_achieved (self w) /\
  snd (done w) = w.
Proof.
  destruct (step_frame u deviation w) as [Hcfg [Hpl Hflag]].
  repeat split; try assumption; try apply Hcfg.
  rewrite done_run. reflexivity.
Qed.

(** C10: the completion test compares [timestep] to [timeout] by equality.
    Once [timestep] is above [timeout], [done()] answers false in every
    state outside the terminal states; and a returning [step] from an
    engine whose [timestep] has reached [timeout], into a state that is not
    terminal, leaves [timestep] above [timeout] and reports not done. *)
Theorem done_false_past_timeout (w : World) :
  (timeout (self w) < timestep (self w) ->
   py_in (current_state (self w)) (terminal_states (self w)) = false ->
   done w = (inr false, w)) /\
  (timeout (self w) <= timestep (self w) ->
   forall (u : Z) (deviation : float) (x : step_result) (w' : World),
     step u deviation w = (inr x, w') ->
     ~ In (res_next_state x) (terminal_states (self w')) ->
     timeout (self w') < timestep (self w') /\
     res_done x = false /\
     done w' = (inr false, w')).
Proof.
  split.
  - intros Hlt Hout. rewrite done_run. unfold episode_over. rewrite Hout.
    simpl. destruct (Z.eqb_spec (timestep (self w)) (timeout (self w)));
      [lia | reflexivity].
  - intros Hle u deviation x w' Hstep Hout.
    destruct (step_returns _ _ _ _ _ Hstep) as [Hself Hdone].
    assert (Hover : episode_over (self w') = false).
    { unfold episode_over. rewrite Hself in *. simpl in *.
      apply orb_false_iff. split.
      - apply not_true_is_false. intros Hin.
        apply (py_in_Some (res_next_state x)) in Hin. contradiction.
      - apply Z.eqb_neq. lia. }
    split; [rewrite Hself; simpl; lia |].
    split; [now rewrite Hdone |].
    rewrite done_run, Hover. reflexivity.
Qed.

End StepClaims.

(** ** Construction, [reset] and [render] *)

Section EngineClaims.
Context {Label : Type} `{Renderer} `{Toolbox}.
Local Abbreviation World := (@World Label _ _).


(** With one state, [reset(uniform=True)] builds the empty vector, and
    whatever index the sampler answers is returned: none lies in the empty
    range [0, S - 2]. *)
Lemma reset_uniform_one_state_never_in_range (w w' : World) (s : Z) :
  nb_states (self w) = 1 ->
  reset true w = (inr (Some s), w') ->
  discreteProb [] (np_random w) = (inr s, np_random w') /\
  ~ (0 <= s <= nb_states (self w) - 2).
Proof.
  intros Hone. rewrite reset_uniform_run by lia. rewrite Hone.
  change (uniform_weights (1 - 1)) with (@nil float).
  destruct (discreteProb [] (np_random w)) as [[e | i] g]; [discriminate |].
  intros Heq. injection Heq as <- <-. simpl. split; [reflexivity | lia].
Qed.

(** C5: the constructor fails when [timeout <= 10], producing no engine,
    and succeeds when [timeout > 10]. The failure is the [TypeError] of the
    assertion's message, which adds the integer [timeout] to a string. *)
Theorem init_requires_timeout_above_10 (nb_states : Z)
    (action_space : SimpleActionSpace Label) (start_distribution : list float)
    (transition_matrix : list (list (list float)))
    (reward_matrix : list (list float)) (plotter : Plotter) (gamma : float)
    (terminal_states : option (list Z)) (limit : Z) (has_state : bool) :
  (limit <= 10 ->
   Mdp_init nb_states action_space start_distribution transition_matrix
     reward_matrix plotter gamma terminal_states limit has_state
   = inl TypeError) /\
  (10 < limit ->
   exists m : Mdp Label,
     Mdp_init nb_states action_space start_distribution transition_matrix
       reward_matrix plotter gamma terminal_states limit has_state
     = inr m /\
     timeout m = limit /\ timestep m = 0 /\
     current_state m = None).
Proof.
  unfold Mdp_init, py_assert, str_add_int. split; intros Ht.
  - destruct (Z.ltb_spec 10 limit); [lia | reflexivity].
  - destruct (Z.ltb_spec 10 limit); [| lia].
    eexists. split; [reflexivity |]. simpl. repeat split.
Qed.

(** C6: a call of [reset], with either value of [uniform], for which the
    vector can be built and the sampler answers [s], returns [s]; it leaves
    [timestep] at 0, the flag [last_action_achieved] false, and
    [current_state] equal to the value returned. When [s] is not a terminal
    state and [timeout > 0], [done()] right after it answers false. *)
Theorem reset_starts_episode (w : World) (uniform : bool) (s : Z) (g : RNG) :
  (uniform = true -> 1 <= nb_states (self w)) ->
  discreteProb
    (if uniform then uniform_weights (nb_states (self w) - 1)
     else P0 (self w)) (np_random w) = (inr s, g) ->
  exists (v : option Z) (w' : World),
    reset uniform w = (inr v, w') /\
    timestep (self w') = 0 /\
    last_action_achieved (self w') = Some false /\
    v = current_state (self w') /\
    v = Some s /\
    (~ In s (terminal_states (self w')) -> 0 < timeout (self w') ->
     done w' = (inr false, w')).
Proof.
  intros Hn Hdraw.
  assert (Hrun : reset uniform w =
                 (inr (Some s),
                  {| self := restarted (self w) s; np_random := g |})).
  { destruct uniform.
    - rewrite reset_uniform_run by (specialize (Hn eq_refl); lia).
      rewrite Hdraw. reflexivity.
    - rewrite reset_P0_run, Hdraw. reflexivity. }
  eexists. eexists. split; [exact Hrun |]. simpl.
  repeat split.
  intros Hout Ht. rewrite done_run. unfold episode_over. simpl.
  replace (existsb (Z.eqb s) (terminal_states (self w))) with false.
  - simpl. destruct (timeout (self w)); [lia | reflexivity | lia].
  - symmetry. apply not_true_is_false. intros Hin.
    apply (py_in_Some s) in Hin. contradiction.
Qed.

(** An engine just constructed has no state yet. *)
Lemma Mdp_init_fresh (nb_states : Z) (action_space : SimpleActionSpace Label)
    (start_distribution : list float)
    (transition_matrix : list (list (list float)))
    (reward_matrix : list (list float)) (plotter : Plotter) (gamma : float)
    (terminal_states : option (list Z)) (limit : Z) (with_state : bool)
    (m : Mdp Label) :
  Mdp_init nb_states action_space start_distribution transition_matrix
    reward_matrix plotter gamma terminal_states limit with_state = inr m ->
  current_state m = None /\ has_state m = with_state /\
  timestep m = 0.
Proof.
  unfold Mdp_init. destruct (py_assert _ _); [discriminate |].
  intros Heq. injection Heq as <-. repeat split.
Qed.

(** C7: [render] makes one call of the plotter's [render] and returns what
    that call returns, so it raises only when the plotter does. The call
    carries [v] and [policy] defaulting to empty arrays, and its agent state
    is resolved in this order: without [has_state], [agent_state=None] and
    no policy; else with an [agent_pos], that position and no policy; else
    with a [current_state], that state and the policy array; else neither
    an agent state nor a policy. So on an engine just constructed with
    [has_state=True], [render()] calls the plotter without an
    [agent_state] argument. *)
Theorem render_agent_state_priority (w : World) (v : option (list float))
    (policy : option (list Z)) (agent_pos : option Position)
    (title mode : string) :
  exists call : render_call Position,
    render v policy agent_pos title mode w
      = with_plotter (plotter_render call) w /\
    call_v call = match v with None => [] | Some a => a end /\
    call_title call = title /\ call_mode call = mode /\
    (has_state (self w) = false ->
     call_agent_state call = AgentNone /\ call_policy call = None) /\
    (has_state (self w) = true -> forall pos, agent_pos = Some pos ->
     call_agent_state call = AgentPosition pos /\ call_policy call = None) /\
    (has_state (self w) = true -> agent_pos = None ->
     forall s, current_state (self w) = Some s ->
     call_agent_state call = AgentState s /\
     call_policy call = Some (match policy with None => [] | Some a => a end)) /\
    (has_state (self w) = true -> agent_pos = None ->
     current_state (self w) = None ->
     call_agent_state call = AgentOmitted /\ call_policy call = None) /\
    (forall nb_states action_space start_distribution transition_matrix
            reward_matrix plotter gamma terminal_states timeout,
       Mdp_init nb_states action_space start_distribution transition_matrix
         reward_matrix plotter gamma terminal_states timeout true
       = inr (self w) ->
       agent_pos = None ->
       call_agent_state call = AgentOmitted /\ call_policy call = None).
Proof.
  unfold render, bind, attr. simpl.
  destruct (has_state (self w)) eqn:Hhs; simpl;
    [destruct agent_pos as [pos |];
       [| destruct (current_state (self w)) as [s |] eqn:Hcs] |];
    (eexists; split; [reflexivity |]; simpl;
     repeat split; try reflexivity; try discriminate).
  all: try congruence.
  all: match goal with
       | Hinit : Mdp_init _ _ _ _ _ _ _ _ _ _ = inr _ |- _ =>
           destruct (Mdp_init_fresh _ _ _ _ _ _ _ _ _ _ _ Hinit)
             as [Hnone [Hflag _]]; congruence
       end.
Qed.

End EngineClaims.

(** ** The action space *)

Section ActionSpaceClaims.
Context {Label : Type} `{Toolbox}.

(** The constructor records the number of actions. *)
Lemma SimpleActionSpace_init_size (action_list : option (list (action Label)))
    (nactions : Z) :
  let space := SimpleActionSpace_init action_list nactions in
  size space = Z.of_nat (List.length (actions space)).
Proof. reflexivity. Qed.

(** C8: on a constructed action space of size [K > 0], [sample()] without
    [prob_list] hands the sampler the vector of [K] weights [1.0 / K] and,
    when the sampler keeps its contract on that vector (an index in
    [0, K)), returns the action at the sampled index, a member of the
    ordered sequence of actions, whatever the identifiers are. *)
Theorem sample_uniform_returns_member
    (action_list : option (list (action Label))) (nactions : Z) (g : RNG) :
  let space := SimpleActionSpace_init action_list nactions in
  0 < size space ->
  sampler_in_range (uniform_weights (size space)) ->
  (Z.of_nat (List.length (uniform_weights (size space))) = size space /\
   Forall (eq (F64.div F64.one (F64.of_Z (size space))))
     (uniform_weights (size space))) /\
  exists (index : Z) (a : action Label) (g' : RNG),
    discreteProb (uniform_weights (size space)) g = (inr index, g') /\
    sample space None g = (inr a, g') /\
    nth_error (actions space) (Z.to_nat index) = Some a /\
    In a (actions space).
Proof.
  intros space Hpos Hrange.
  assert (Hk : 0 <= size space) by lia.
  split; [split |].
  - apply uniform_weights_length. exact Hk.
  - apply Forall_forall. intros x Hx. symmetry.
    unfold uniform_weights in Hx. eapply repeat_spec. exact Hx.
  - destruct (Hrange g) as [index [g' [Hdraw Hi]]].
    rewrite (uniform_weights_length _ Hk) in Hi.
    pose proof (SimpleActionSpace_init_size action_list nactions) as Hsize.
    cbv zeta in Hsize. fold space in Hsize. rewrite Hsize in Hi.
    destruct (getitem_in_range (actions space) index Hi) as [a [Hget Hnth]].
    destruct (np_div_ones _ Hk) as [ones [Hones Hdiv]].
    exists index, a, g'. split; [exact Hdraw |]. split; [| split].
    + unfold sample, bind, lift, ret. rewrite Hones, Hdiv, Hdraw, Hget.
      reflexivity.
    + exact Hnth.
    + eapply nth_error_In. exact Hnth.
Qed.

End ActionSpaceClaims.

(** ** The sampler of the spec keeps its contract *)

Lemma first_exceeding_bounds (u : float) (weights : list float) :
  forall (acc : float) (i : Z),
    i - 1 <= first_exceeding u acc i weights
      < i + Z.of_nat (List.length weights) /\
    (weights <> [] -> i <= first_exceeding u acc i weights).
Proof.
  induction weights as [| w rest IH]; intros acc i.
  - simpl. split; [lia | congruence].
  - cbn [first_exceeding List.length].
    destruct (F64.ltb u (F64.add acc w)).
    + split; [lia | intros _; lia].
    + destruct (IH (F64.add acc w) (i + 1)) as [Hb _].
      split; [lia | intros _; lia].
Qed.

Lemma inverse_cdf_in_range `{RandomSource} (p : list float) :
  p <> [] -> sampler_in_range (H0 := spec_toolbox) p.
Proof.
  intros Hp g. simpl. unfold inverse_cdf.
  destruct (random_sample g) as [u g'].
  eexists. eexists. split; [reflexivity |].
  destruct (first_exceeding_bounds u p F64.zero 0) as [Hb Hlo].
  specialize (Hlo Hp). lia.
Qed.

(** ** Concrete runs in the corridor

    Each property above that has premises, applied to the corridor with the
    replayed tape and the sampler of the spec. *)

Lemma step_done_on_updated_engine_run :
  current_state (self Corridor.started) = Some 0 /\
  getitem2 (r (self Corridor.started)) 0 1 = inr Corridor.minus_one /\
  getitem2 (P (self Corridor.started)) 0 1 = inr (Corridor.onehot 1) /\
  randn (np_random Corridor.started)
    = (Corridor.half, Corridor.tape 38) /\
  discreteProb (Corridor.onehot 1) (Corridor.tape 38)
    = (inr 1, Corridor.tape 37) /\
  exists x w',
    step 1 Corridor.half Corridor.started = (inr x, w') /\
    res_next_state x = 1 /\
    timestep (self w') = timestep (self Corridor.started) + 1 /\
    current_state (self w') = Some 1 /\
    done w' = (inr (res_done x), w') /\
    (res_done x = true <->
       In 1 (terminal_states (self w')) \/
       timestep (self w') = timeout (self w')).
Proof.
  repeat (split; [reflexivity |]).
  apply (step_done_on_updated_engine Corridor.started 1 Corridor.half 0 1
           Corridor.minus_one Corridor.half (Corridor.onehot 1)
           (Corridor.tape 38) (Corridor.tape 37));
    reflexivity.
Defined.

Lemma done_exactly_at_timeout_run :
  reset false Corridor.initial = (inr (Some 0), Corridor.started) /\
  episode (Corridor.stay 12) Corridor.started
    = (inr (Corridor.trace 12), Corridor.after 12) /\
  (forall x d, In (x, d) (Corridor.trace 12) ->
     ~ In (res_next_state x) (terminal_states (self Corridor.initial))) /\
  List.length (Corridor.trace 12) = List.length (Corridor.stay 12) /\
  forall (k : nat) (x : step_result) (d : bool),
    nth_error (Corridor.trace 12) k = Some (x, d) ->
    res_done x = d /\
    (d = true <-> Z.of_nat k + 1 = timeout (self Corridor.initial)).
Proof.
  assert (Hreset : reset false Corridor.initial
                   = (inr (Some 0), Corridor.started))
    by (vm_compute; reflexivity).
  assert (Hrun : episode (Corridor.stay 12) Corridor.started
                 = (inr (Corridor.trace 12), Corridor.after 12))
    by (vm_compute; reflexivity).
  assert (Hout : forall x d, In (x, d) (Corridor.trace 12) ->
            ~ In (res_next_state x) (terminal_states (self Corridor.initial)))
    by (apply visits_outside; vm_compute; reflexivity).
  split; [exact Hreset |]. split; [exact Hrun |]. split; [exact Hout |].
  exact (done_exactly_at_timeout Corridor.initial Corridor.started
           (Corridor.after 12) false (Some 0) (Corridor.stay 12)
           (Corridor.trace 12) Hreset Hrun Hout).
Defined.



Lemma step_zero_deviation_reward_run :
  F64.is_zero F64.zero = true /\
  current_state (self Corridor.started) = Some 0 /\
  getitem2 (r (self Corridor.started)) 0 1 = inr Corridor.minus_one /\
  F64.is_nan Corridor.minus_one = false /\
  getitem2 (P (self Corridor.started)) 0 1 = inr (Corridor.onehot 1) /\
  randn (np_random Corridor.started) = (Corridor.half, Corridor.tape 38) /\
  F64.is_finite Corridor.half = true /\
  discreteProb (Corridor.onehot 1) (Corridor.tape 38)
    = (inr 1, Corridor.tape 37) /\
  exists x w',
    step 1 F64.zero Corridor.started = (inr x, w') /\
    F64.is_zero (reward_noise_value (res_info x)) = true /\
    F64.eqb (res_reward x) Corridor.minus_one = true /\
    (F64.is_zero Corridor.minus_one = false ->
     res_reward x = Corridor.minus_one).
Proof.
  repeat (split; [reflexivity |]).
  apply (step_zero_deviation_reward Corridor.started 1 F64.zero 0 1
           Corridor.minus_one Corridor.half (Corridor.onehot 1)
           (Corridor.tape 38) (Corridor.tape 37));
    reflexivity.
Defined.

Lemma init_requires_timeout_above_10_run :
  10 <= 10 /\ Corridor.engine 10 = inl TypeError /\
  10 < 11 /\
  exists m : Mdp string,
    Corridor.engine 11 = inr m /\ timeout m = 11 /\ timestep m = 0 /\
    current_state m = None.
Proof.
  assert (Hle : 10 <= 10) by lia.
  assert (Hlt : 10 < 11) by lia.
  split; [exact Hle |]. split; [| split; [exact Hlt |]].
  - exact (proj1 (init_requires_timeout_above_10 3 Corridor.space
                    (Corridor.onehot 0) Corridor.transitions Corridor.rewards
                    [] default_gamma (Some [2]) 10 default_has_state) Hle).
  - exact (proj2 (init_requires_timeout_above_10 3 Corridor.space
                    (Corridor.onehot 0) Corridor.transitions Corridor.rewards
                    [] default_gamma (Some [2]) 11 default_has_state) Hlt).
Defined.

Lemma reset_starts_episode_run :
  (false = true -> 1 <= nb_states (self Corridor.initial)) /\
  discreteProb (P0 (self Corridor.initial)) (np_random Corridor.initial)
    = (inr 0, Corridor.tape 39) /\
  exists (v : option Z) (w' : World),
    reset false Corridor.initial = (inr v, w') /\
    timestep (self w') = 0 /\
    last_action_achieved (self w') = Some false /\
    v = current_state (self w') /\
    v = Some 0 /\
    (~ In 0 (terminal_states (self w')) -> 0 < timeout (self w') ->
     done w' = (inr false, w')).
Proof.
  assert (Hn : false = true -> 1 <= nb_states (self Corridor.initial))
    by discriminate.
  assert (Hdraw : discreteProb (P0 (self Corridor.initial))
                    (np_random Corridor.initial)
                  = (inr 0, Corridor.tape 39)) by reflexivity.
  split; [exact Hn |]. split; [exact Hdraw |].
  exact (reset_starts_episode Corridor.initial false 0 (Corridor.tape 39)
           Hn Hdraw).
Defined.

Lemma render_agent_state_priority_run :
  Corridor.engine 11 = inr (self Corridor.initial) /\
  exists call : render_call (Z * Z),
    render None None None default_title default_mode Corridor.initial
      = with_plotter (plotter_render call) Corridor.initial /\
    call_v call = [] /\
    call_agent_state call = AgentOmitted /\ call_policy call = None.
Proof.
  assert (Hinit : Corridor.engine 11 = inr (self Corridor.initial))
    by reflexivity.
  split; [exact Hinit |].
  destruct (render_agent_state_priority Corridor.initial None None None
              default_title default_mode)
    as [call [Hrun [Hv [_ [_ [_ [_ [_ [_ Hfresh]]]]]]]]].
  exists call. split; [exact Hrun |]. split; [exact Hv |].
  exact (Hfresh _ _ _ _ _ _ _ _ _ Hinit eq_refl).
Defined.

Lemma sample_uniform_returns_member_run :
  0 < size Corridor.space /\
  sampler_in_range (uniform_weights (size Corridor.space)) /\
  exists (index : Z) (a : action string) (g' : RNG),
    discreteProb (uniform_weights (size Corridor.space)) (Corridor.tape 3)
      = (inr index, g') /\
    sample Corridor.space None (Corridor.tape 3) = (inr a, g') /\
    nth_error (actions Corridor.space) (Z.to_nat index) = Some a /\
    In a [Named "stay"; Named "right"]%string.
Proof.
  assert (Hpos : 0 < size Corridor.space) by reflexivity.
  assert (Hrange : sampler_in_range (uniform_weights (size Corridor.space)))
    by (apply inverse_cdf_in_range; discriminate).
  split; [exact Hpos |]. split; [exact Hrange |].
  exact (proj2 (sample_uniform_returns_member
                  (Some [Named "stay"; Named "right"]%string) 0
                  (Corridor.tape 3) Hpos Hrange)).
Defined.

Lemma done_false_past_timeout_run :
  (timeout (self (Corridor.after 12)) < timestep (self (Corridor.after 12)) /\
   py_in (current_state (self (Corridor.after 12)))
     (terminal_states (self (Corridor.after 12))) = false /\
   done (Corridor.after 12) = (inr false, Corridor.after 12)) /\
  (timeout (self (Corridor.after 11)) <= timestep (self (Corridor.after 11)) /\
   done (Corridor.after 11) = (inr true, Corridor.after 11) /\
   exists x w',
     step 0 F64.zero (Corridor.after 11) = (inr x, w') /\
     ~ In (res_next_state x) (terminal_states (self w')) /\
     timeout (self w') < timestep (self w') /\
     res_done x = false /\
     done w' = (inr false, w')).
Proof.
  split.
  - assert (Hlt : timeout (self (Corridor.after 12))
                  < timestep (self (Corridor.after 12)))
      by (vm_compute; reflexivity).
    assert (Hout : py_in (current_state (self (Corridor.after 12)))
                     (terminal_states (self (Corridor.after 12))) = false)
      by (vm_compute; reflexivity).
    split; [exact Hlt |]. split; [exact Hout |].
    exact (proj1 (done_false_past_timeout (Corridor.after 12)) Hlt Hout).
  - assert (Hle : timeout (self (Corridor.after 11))
                  <= timestep (self (Corridor.after 11)))
      by (vm_compute; discriminate).
    split; [exact Hle |]. split; [vm_compute; reflexivity |].
    destruct (step 0 F64.zero (Corridor.after 11)) as [[e | x] w'] eqn:Hstep;
      [vm_compute in Hstep; discriminate |].
    assert (Hout : ~ In (res_next_state x) (terminal_states (self w'))).
    { vm_compute in Hstep. injection Hstep as <- <-. simpl.
      intros [Heq | []]. discriminate. }
    exists x, w'. split; [reflexivity |]. split; [exact Hout |].
    exact (proj2 (done_false_past_timeout (Corridor.after 11)) Hle
             0 F64.zero x w' Hstep Hout).
Defined.

(** ** Further properties of indexing *)

Section IndexFacts.
Context {A : Type}.

Lemma getitem_wrap (a : list A) (i : Z) :
  - Z.of_nat (List.length a) <= i < 0 ->
  getitem a i = getitem a (i + Z.of_nat (List.length a)).
Proof.
  intros Hi. unfold getitem. cbv zeta.
  assert (Hneg : (i <? 0) = true) by (apply Z.ltb_lt; lia).
  assert (Hpos : (i + Z.of_nat (List.length a) <? 0) = false)
    by (apply Z.ltb_ge; lia).
  rewrite Hneg, !Hpos. reflexivity.
Qed.

Lemma getitem_outside (a : list A) (i : Z) :
  i < - Z.of_nat (List.length a) \/ Z.of_nat (List.length a) <= i ->
  getitem a i = inl IndexError.
Proof.
  intros Hi. unfold getitem. cbv zeta.
  destruct (Z.lt_ge_cases i 0) as [Hneg | Hpos].
  - assert (Hneg0 : (i <? 0) = true) by (apply Z.ltb_lt; lia).
    assert (Hlow : (i + Z.of_nat (List.length a) <? 0) = true)
      by (apply Z.ltb_lt; lia).
    rewrite Hneg0, !Hlow. reflexivity.
  - assert (Hlow : (i <? 0) = false) by (apply Z.ltb_ge; lia).
    assert (Hhigh : (Z.of_nat (List.length a) <=? i) = true)
      by (apply Z.leb_le; lia).
    rewrite !Hlow, Hhigh. reflexivity.
Qed.

Lemma getitem_within (a : list A) (i : Z) :
  - Z.of_nat (List.length a) <= i < Z.of_nat (List.length a) ->
  exists x, getitem a i = inr x /\ In x a.
Proof.
  intros Hi. destruct (Z.lt_ge_cases i 0) as [Hneg | Hpos].
  - rewrite getitem_wrap by lia.
    destruct (getitem_in_range a (i + Z.of_nat (List.length a)))
      as [x [Hget Hnth]]; [lia |].
    exists x. split; [exact Hget | eapply nth_error_In; exact Hnth].
  - destruct (getitem_in_range a i) as [x [Hget Hnth]]; [lia |].
    exists x. split; [exact Hget | eapply nth_error_In; exact Hnth].
Qed.

End IndexFacts.

(** ** Further properties of [step] *)

Section StepProperties.
Context {Label : Type} `{Renderer} `{Toolbox}.
Local Abbreviation World := (@World Label _ _).

(** X1: a call of [step] that raises, whatever the exception, leaves every
    field of the engine as it was: [timestep] is not incremented and
    [current_state] is not replaced. *)
Theorem step_raising_leaves_engine (w w' : World) (u : Z) (deviation : float)
    (e : exn) :
  step u deviation w = (inl e, w') -> self w' = self w.
Proof.
  rewrite step_run. simpl.
  destruct (randn _) as [z g1].
  destruct (at_state (r _) _ _);
    [intros Heq; injection Heq as _ <-; reflexivity |].
  destruct (at_state (P _) _ _);
    [intros Heq; injection Heq as _ <-; reflexivity |].
  destruct (discreteProb _ _) as [[e' | ns] g2]; [| discriminate].
  intros Heq. injection Heq as _ <-. reflexivity.
Qed.

(** X2: with an action outside the row [r[s]] of the current state ([u]
    at or above its length, or below minus its length), [step] raises
    [IndexError]; the engine is untouched, the sampler has not been called,
    and the random state has moved by the one normal draw of the noise. *)
Theorem step_action_out_of_range (w : World) (u : Z) (deviation : float)
    (s : Z) (rewards_of_s : list float) :
  current_state (self w) = Some s ->
  getitem (r (self w)) s = inr rewards_of_s ->
  u < - Z.of_nat (List.length rewards_of_s) \/
    Z.of_nat (List.length rewards_of_s) <= u ->
  step u deviation w =
    (inl IndexError,
     {| self := self w; np_random := snd (randn (np_random w)) |}).
Proof.
  intros Hcs Hrow Hu. rewrite step_run. simpl.
  destruct (randn _) as [z g1]. rewrite Hcs. simpl.
  unfold getitem2. rewrite Hrow, (getitem_outside _ _ Hu). reflexivity.
Qed.

(** X3: a call of [step] that returns, on an engine whose state is an
    index [s], found an entry at [u] in both tables (neither lookup raised);
    the row in [info] is [P[s, u, :]] for the state before the call, the
    one the sampler drew [next_state] from; the noise in [info] is
    [deviation] times the normal draw; and the reward is [r[s, u]] plus
    that noise. *)
Theorem step_returning_used_entries (w w' : World) (u : Z)
    (deviation : float) (s : Z) (x : step_result) :
  current_state (self w) = Some s ->
  step u deviation w = (inr x, w') ->
  exists (rsu z : float) (row : list float) (g1 : RNG),
    getitem2 (r (self w)) s u = inr rsu /\
    getitem2 (P (self w)) s u = inr row /\
    randn (np_random w) = (z, g1) /\
    discreteProb row g1 = (inr (res_next_state x), np_random w') /\
    state_transition_probabilities (res_info x) = row /\
    reward_noise_value (res_info x) = F64.mul deviation z /\
    res_reward x = F64.add rsu (reward_noise_value (res_info x)).
Proof.
  intros Hcs. rewrite step_run. simpl.
  destruct (randn (np_random w)) as [z g1] eqn:Hz.
  rewrite Hcs. simpl.
  destruct (getitem2 (r _) s u) as [e | rsu] eqn:Hr; [discriminate |].
  destruct (getitem2 (P _) s u) as [e | row] eqn:HP; [discriminate |].
  destruct (discreteProb row g1) as [[e | ns] g2] eqn:Hns; [discriminate |].
  intros Heq. injection Heq as <- <-.
  exists rsu, z, row, g1. simpl. repeat split; assumption.
Qed.

(** X4: what [step] samples and pays does not depend on the episode
    bookkeeping. Two engines with the same tables [P] and [r], the same
    current state and the same random state give the same next state,
    reward and [info], or the same exception, and leave the same random
    state, whatever their terminal states, timeouts and step counters. *)
Theorem step_ignores_bookkeeping (w1 w2 : World) (u : Z) (deviation : float) :
  P (self w1) = P (self w2) ->
  r (self w1) = r (self w2) ->
  current_state (self w1) = current_state (self w2) ->
  np_random w1 = np_random w2 ->
  transition_of (fst (step u deviation w1))
    = transition_of (fst (step u deviation w2)) /\
  np_random (snd (step u deviation w1))
    = np_random (snd (step u deviation w2)).
Proof.
  intros HP Hr Hcs Hg. rewrite !step_run. simpl.
  rewrite HP, Hr, Hcs, Hg.
  destruct (randn _) as [z g1].
  destruct (at_state (r _) _ _); [split; reflexivity |].
  destruct (at_state (P _) _ _); [split; reflexivity |].
  destruct (discreteProb _ _) as [[e | ns] g2]; split; reflexivity.
Qed.

(** X5: a negative action counts from the end of the action axis: when the
    rows [r[s]] and [P[s]] of the current state both have [n] entries and
    [-n <= u < 0], [step(u)] does exactly what [step(u + n)] does. *)
Theorem step_negative_action_wraps (w : World) (u : Z) (deviation : float)
    (s : Z) (rewards_of_s : list float) (rows_of_s : list (list float)) :
  current_state (self w) = Some s ->
  getitem (r (self w)) s = inr rewards_of_s ->
  getitem (P (self w)) s = inr rows_of_s ->
  List.length rows_of_s = List.length rewards_of_s ->
  - Z.of_nat (List.length rewards_of_s) <= u < 0 ->
  step u deviation w
    = step (u + Z.of_nat (List.length rewards_of_s)) deviation w.
Proof.
  intros Hcs Hr HP Hlen Hu. rewrite !step_run. simpl.
  rewrite Hcs. simpl. unfold getitem2. rewrite Hr, HP.
  rewrite (getitem_wrap rewards_of_s u Hu).
  rewrite (getitem_wrap rows_of_s u) by (rewrite Hlen; exact Hu).
  rewrite Hlen. reflexivity.
Qed.

Lemma same_configuration_refl (m : Mdp Label) : same_configuration m m.
Proof. unfold same_configuration. repeat split. Qed.

Lemma same_configuration_trans (m1 m2 m3 : Mdp Label) :
  same_configuration m1 m2 -> same_configuration m2 m3 ->
  same_configuration m1 m3.
Proof.
  unfold same_configuration. intros H12 H23.
  repeat match goal with Hc : _ /\ _ |- _ => destruct Hc end.
  repeat split; congruence.
Qed.

Lemma episode_counts (calls : list (Z * float)) :
  forall (w w' : World) (xs : list (step_result * bool)),
    episode calls w = (inr xs, w') ->
    timestep (self w') = timestep (self w) + Z.of_nat (List.length calls) /\
    same_configuration (self w) (self w').
Proof.
  induction calls as [| [u dev] rest IH]; intros w w' xs.
  - simpl. unfold ret. intros Heq. injection Heq as _ <-.
    split; [lia | apply same_configuration_refl].
  - simpl. unfold bind at 1.
    destruct (step u dev w) as [[e | x0] w1] eqn:Hstep; [discriminate |].
    unfold bind at 1. rewrite done_run. unfold bind at 1.
    destruct (episode rest w1) as [[e | xs1] w2] eqn:Hrest; [discriminate |].
    unfold ret. intros Heq. injection Heq as _ <-.
    destruct (step_returns _ _ _ _ _ Hstep) as [Hself _].
    destruct (IH _ _ _ Hrest) as [Ht Hcfg].
    pose proof (step_frame u dev w) as [Hcfg0 _].
    rewrite Hstep in Hcfg0. simpl in Hcfg0.
    split.
    + rewrite Ht, Hself. simpl. lia.
    + eapply same_configuration_trans; eassumption.
Qed.

(** X6: [timestep] counts the calls of [step] since the last [reset]:
    after a [reset] and a run of [n] returning calls, each followed by
    [done()], [timestep] is [n], and the configuration is the one the
    engine had before the [reset]. *)
Theorem timestep_counts_steps_since_reset (w0 w1 w2 : World)
    (uniform : bool) (v : option Z) (calls : list (Z * float))
    (xs : list (step_result * bool)) :
  reset uniform w0 = (inr v, w1) ->
  episode calls w1 = (inr xs, w2) ->
  timestep (self w2) = Z.of_nat (List.length calls) /\
  same_configuration (self w0) (self w2).
Proof.
  intros Hreset Hrun.
  destruct (reset_returns _ _ _ _ Hreset) as [s [_ Hself]].
  destruct (episode_counts _ _ _ _ Hrun) as [Ht Hcfg].
  split.
  - rewrite Ht, Hself. simpl. lia.
  - eapply same_configuration_trans; [| exact Hcfg].
    rewrite Hself. unfold same_configuration. simpl. repeat split.
Qed.

End StepProperties.

(** ** Further properties of construction, [reset] and the plotting methods *)

Section EngineProperties.
Context {Label : Type} `{Figures} `{Toolbox}.
Local Abbreviation World := (@World Label _ _).

Lemma reset_uniform_negative (w : World) :
  nb_states (self w) - 1 < 0 -> reset true w = (inl ValueError, w).
Proof.
  intros Hn. unfold reset, bind, attr, lift, np_ones. simpl.
  destruct (Z.ltb_spec (nb_states (self w) - 1) 0); [| lia].
  destruct w; reflexivity.
Qed.

Lemma restarted_same (m1 m2 : Mdp Label) (s : Z) :
  same_configuration m1 m2 -> plotter m2 = plotter m1 ->
  restarted m1 s = restarted m2 s.
Proof.
  destruct m1, m2. unfold same_configuration, restarted. simpl.
  intros Hcfg Hpl.
  repeat match goal with Hc : _ /\ _ |- _ => destruct Hc end.
  subst. reflexivity.
Qed.

(** X7: a call of [reset], whatever it does, keeps the configuration and
    the plotter; when it raises (the sampler raises, or [np.ones] refuses a
    negative length) it leaves every field of the engine as it was, so the
    episode in progress is not lost. *)
Theorem reset_keeps_configuration (w : World) (uniform : bool) :
  same_configuration (self w) (self (snd (reset uniform w))) /\
  plotter (self (snd (reset uniform w))) = plotter (self w) /\
  (forall e, fst (reset uniform w) = inl e ->
     self (snd (reset uniform w)) = self w).
Proof.
  assert (Hsame : forall s, same_configuration (self w) (restarted (self w) s))
    by (intros s; unfold same_configuration; simpl; repeat split).
  destruct uniform.
  - destruct (Z.lt_ge_cases (nb_states (self w) - 1) 0) as [Hneg | Hn].
    + rewrite (reset_uniform_negative w Hneg). simpl.
      repeat split; unfold same_configuration; repeat split.
    + rewrite (reset_uniform_run w Hn).
      destruct (discreteProb _ _) as [[e | s] g]; simpl.
      * repeat split; unfold same_configuration; repeat split.
      * split; [apply Hsame |]. split; [reflexivity | discriminate].
  - rewrite reset_P0_run.
    destruct (discreteProb _ _) as [[e | s] g]; simpl.
    + repeat split; unfold same_configuration; repeat split.
    + split; [apply Hsame |]. split; [reflexivity | discriminate].
Qed.

(** X8: [reset(uniform=True)] needs two states. With [nb_states <= 0] it
    raises [ValueError] before any draw, leaving engine and random state
    untouched; with [nb_states = 1] it hands the sampler an empty vector of
    weights and keeps whatever index the sampler answers. *)
Theorem reset_uniform_too_few_states (w : World) :
  (nb_states (self w) <= 0 -> reset true w = (inl ValueError, w)) /\
  (nb_states (self w) = 1 ->
   reset true w =
   match discreteProb [] (np_random w) with
   | (inl e, g) => (inl e, {| self := self w; np_random := g |})
   | (inr s, g) =>
       (inr (Some s), {| self := restarted (self w) s; np_random := g |})
   end).
Proof.
  split; intros Hn.
  - apply reset_uniform_negative. lia.
  - rewrite reset_uniform_run by lia. rewrite Hn. reflexivity.
Qed.

(** X9: [reset] starts afresh: what it returns, and the world it leaves
    when it returns, depend on the configuration, the plotter and the
    random state only, not on the state, the step counter or the flag of
    the episode before. *)
Theorem reset_forgets_episode (w1 w2 : World) (uniform : bool) :
  same_configuration (self w1) (self w2) ->
  plotter (self w2) = plotter (self w1) ->
  np_random w1 = np_random w2 ->
  fst (reset uniform w1) = fst (reset uniform w2) /\
  (forall v, fst (reset uniform w1) = inr v ->
     snd (reset uniform w1) = snd (reset uniform w2)).
Proof.
  intros Hcfg Hpl Hg.
  pose proof (fun s => restarted_same _ _ s Hcfg Hpl) as Hre.
  destruct Hcfg as [_ [_ [HP0 [Hn _]]]].
  destruct uniform.
  - destruct (Z.lt_ge_cases (nb_states (self w1) - 1) 0) as [Hneg | Hpos].
    + rewrite (reset_uniform_negative w1 Hneg).
      rewrite (reset_uniform_negative w2) by (rewrite Hn; exact Hneg).
      simpl. split; [reflexivity | discriminate].
    + rewrite (reset_uniform_run w1 Hpos).
      rewrite (reset_uniform_run w2) by (rewrite Hn; exact Hpos).
      rewrite Hn, Hg.
      destruct (discreteProb _ _) as [[e | s] g]; simpl.
      * split; [reflexivity | discriminate].
      * split; [reflexivity |]. intros v _. now rewrite Hre.
  - rewrite !reset_P0_run. rewrite HP0, Hg.
    destruct (discreteProb _ _) as [[e | s] g]; simpl.
    + split; [reflexivity | discriminate].
    + split; [reflexivity |]. intros v _. now rewrite Hre.
Qed.

(** X10: an engine just constructed is not done: it has no state yet, its
    step counter is 0 and the constructor has checked that the timeout is
    above 10. When [terminal_states] is left out, its set of terminal
    states is empty. *)
Theorem fresh_engine_not_done (nb_states : Z)
    (action_space : SimpleActionSpace Label) (start_distribution : list float)
    (transition_matrix : list (list (list float)))
    (reward_matrix : list (list float)) (plotter : Plotter) (gamma : float)
    (terminals : option (list Z)) (limit : Z) (with_state : bool)
    (m : Mdp Label) (g : RNG) :
  Mdp_init nb_states action_space start_distribution transition_matrix
    reward_matrix plotter gamma terminals limit with_state = inr m ->
  done {| self := m; np_random := g |}
    = (inr false, {| self := m; np_random := g |}) /\
  (terminals = None -> terminal_states m = []).
Proof.
  unfold Mdp_init, py_assert, str_add_int.
  destruct (Z.ltb_spec 10 limit) as [Hlt | Hge]; [| discriminate].
  intros Heq. injection Heq as <-. split.
  - rewrite done_run. unfold episode_over. simpl.
    destruct limit; try lia. reflexivity.
  - intros ->. reflexivity.
Qed.

(** X11: the plotting methods are a side channel. [render], [new_render]
    and [save_fig] each leave the configuration, the episode state
    ([current_state], [timestep], the flag) and the random state as they
    were, whether the plotter returns or raises, so [done()] answers after
    them what it answered before. *)
Theorem plotting_leaves_episode (w : World) (v : option (list float))
    (policy : option (list Z)) (agent_pos : option Position)
    (title mode : string) :
  let untouched := fun w' : World =>
    same_configuration (self w) (self w') /\
    same_episode (self w) (self w') /\
    np_random w' = np_random w /\
    fst (done w') = fst (done w) in
  untouched (snd (render v policy agent_pos title mode w)) /\
  untouched (snd (new_render title mode w)) /\
  untouched (snd (save_fig title w)).
Proof.
  assert (Hplot : forall (A : Type) (c : Py Plotter A),
            let w' := snd (with_plotter c w) in
            same_configuration (self w) (self w') /\
            same_episode (self w) (self w') /\
            np_random w' = np_random w /\
            fst (done w') = fst (done w)).
  { intros A c. unfold with_plotter.
    destruct (c (plotter (self w))) as [x p]. simpl.
    rewrite !done_run.
    unfold same_configuration, same_episode, episode_over. simpl.
    repeat split. }
  cbv zeta. split; [| split].
  - unfold render, bind, attr. simpl.
    destruct (has_state (self w)); simpl;
      [destruct agent_pos;
         [| destruct (current_state (self w)) eqn:Hcs] |];
      apply Hplot.
  - unfold new_render. apply Hplot.
  - unfold save_fig, bind, ret.
    specialize (Hplot _ (plotter_save_fig title)).
    destruct (with_plotter (plotter_save_fig title) w) as [[e | x] w'];
      exact Hplot.
Qed.

End EngineProperties.

(** ** Further properties of the action space *)

Lemma np_arange_length (n : Z) :
  Z.of_nat (List.length (np_arange n)) = Z.max 0 n.
Proof. unfold np_arange. rewrite length_map, length_seq. lia. Qed.

Lemma np_arange_getitem (n i : Z) :
  0 <= i < n -> getitem (np_arange n) i = inr i.
Proof.
  intros Hi.
  destruct (getitem_in_range (np_arange n) i) as [x [Hget Hnth]].
  { rewrite np_arange_length. lia. }
  rewrite Hget. f_equal. unfold np_arange in Hnth.
  rewrite nth_error_map in Hnth.
  destruct (nth_error (seq 0 (Z.to_nat n)) (Z.to_nat i)) as [k |] eqn:Hk;
    [| discriminate].
  apply nth_error_nth with (d := 0%nat) in Hk.
  rewrite seq_nth in Hk by lia.
  simpl in Hnth. injection Hnth as <-. lia.
Qed.

Section ActionSpaceProperties.
Context {Label : Type} `{Toolbox}.

Lemma getitem_map_Index (l : list Z) (i x : Z) :
  getitem l i = inr x ->
  getitem (map (@Index Label) l) i = inr (Index x).
Proof.
  unfold getitem. rewrite length_map.
  destruct ((_ <? 0) || (_ <=? _)); [discriminate |].
  rewrite nth_error_map.
  destruct (nth_error l _); [| discriminate].
  intros Heq. injection Heq as <-. reflexivity.
Qed.

(** X12: how the constructor chooses the actions. A non-empty
    [action_list] is kept as it is and [nactions] is ignored; an empty list
    is treated like no list; without a list the actions are the integers
    [0 .. nactions-1], action [i] at index [i], and the size is
    [max(0, nactions)], so a negative count gives an empty space. *)
Theorem action_space_construction (l : list (action Label)) (nactions : Z) :
  (l <> [] ->
   SimpleActionSpace_init (Some l) nactions
     = {| actions := l; size := Z.of_nat (List.length l) |}) /\
  SimpleActionSpace_init (Some []) nactions
    = SimpleActionSpace_init (Label := Label) None nactions /\
  size (SimpleActionSpace_init (Label := Label) None nactions)
    = Z.max 0 nactions /\
  (forall i, 0 <= i < nactions ->
     getitem (actions (SimpleActionSpace_init (Label := Label) None nactions))
       i = inr (Index i)).
Proof.
  split; [| split; [| split]].
  - intros Hl. unfold SimpleActionSpace_init.
    destruct l as [| a l']; [congruence | reflexivity].
  - reflexivity.
  - unfold SimpleActionSpace_init. simpl.
    rewrite length_map. apply np_arange_length.
  - intros i Hi. simpl. apply getitem_map_Index.
    apply np_arange_getitem. exact Hi.
Qed.

(** The weights that [sample] hands to the sampler. *)
Lemma sample_run (space : SimpleActionSpace Label)
    (prob_list : option (list float)) (g : RNG) :
  0 <= size space ->
  sample space prob_list g =
  match discreteProb
          (match prob_list with
           | Some p => p
           | None => uniform_weights (size space)
           end) g with
  | (inl e, g') => (inl e, g')
  | (inr index, g') => (getitem (actions space) index, g')
  end.
Proof.
  intros Hk. unfold sample, bind, lift, ret.
  destruct prob_list as [p |].
  - destruct (discreteProb p g) as [[e | index] g']; reflexivity.
  - destruct (np_div_ones _ Hk) as [ones [Hones Hdiv]].
    rewrite Hones, Hdiv.
    destruct (discreteProb _ g) as [[e | index] g']; reflexivity.
Qed.

Lemma SimpleActionSpace_init_nonneg
    (action_list : option (list (action Label))) (nactions : Z) :
  0 <= size (SimpleActionSpace_init action_list nactions).
Proof. unfold SimpleActionSpace_init. simpl. lia. Qed.

(** X13: [sample] returns the action at the index the sampler answers,
    with Python's indexing: for a space of size [K], an index in [-K, K)
    gives a member of the action sequence (a negative one counts from the
    end), any other index raises [IndexError]. This holds for a given
    [prob_list], whatever its length, and for the default uniform one. *)
Theorem sample_follows_sampler_index
    (action_list : option (list (action Label))) (nactions : Z)
    (prob_list : option (list float)) (g g' : RNG) (index : Z) :
  let space := SimpleActionSpace_init action_list nactions in
  discreteProb
    (match prob_list with
     | Some p => p
     | None => uniform_weights (size space)
     end) g = (inr index, g') ->
  sample space prob_list g = (getitem (actions space) index, g') /\
  (- size space <= index < size space ->
   exists a, sample space prob_list g = (inr a, g') /\ In a (actions space)) /\
  (index < - size space \/ size space <= index ->
   sample space prob_list g = (inl IndexError, g')).
Proof.
  intros space Hdraw.
  assert (Hrun : sample space prob_list g
                 = (getitem (actions space) index, g')).
  { rewrite sample_run by apply SimpleActionSpace_init_nonneg.
    fold space. rewrite Hdraw. reflexivity. }
  split; [exact Hrun |]. rewrite Hrun.
  assert (Hsize : size space = Z.of_nat (List.length (actions space)))
    by reflexivity.
  split; intros Hi.
  - destruct (getitem_within (actions space) index) as [a [Hget Hin]];
      [lia |].
    exists a. rewrite Hget. split; [reflexivity | exact Hin].
  - rewrite getitem_outside by lia. reflexivity.
Qed.

(** X14: sampling an empty action space never returns an action: the
    call raises, with the sampler's exception or, when the sampler answers
    an index, with [IndexError]. *)
Theorem sample_empty_space_raises
    (action_list : option (list (action Label))) (nactions : Z)
    (prob_list : option (list float)) (g : RNG) :
  let space := SimpleActionSpace_init action_list nactions in
  size space = 0 ->
  exists e,
    fst (sample space prob_list g) = inl e /\
    (forall index g',
       discreteProb
         (match prob_list with Some p => p | None => [] end) g
         = (inr index, g') ->
       e = IndexError).
Proof.
  intros space Hzero.
  rewrite sample_run by apply SimpleActionSpace_init_nonneg.
  fold space. rewrite Hzero.
  change (uniform_weights 0) with (@nil float).
  assert (Hsize : size space = Z.of_nat (List.length (actions space)))
    by reflexivity.
  destruct (discreteProb _ g) as [[e | index] g1].
  - exists e. split; [reflexivity | discriminate].
  - exists IndexError. rewrite getitem_outside by lia.
    split; [reflexivity | intros; reflexivity].
Qed.

(** X15: a space built from a count [nactions > 0] yields indices: when
    the sampler keeps its contract on the uniform vector, [sample()]
    returns the integer action [i] that the sampler answered, with
    [0 <= i < nactions]. *)
Theorem sample_counted_space_in_range (nactions : Z) (g : RNG) :
  let space := SimpleActionSpace_init (Label := Label) None nactions in
  0 < nactions ->
  sampler_in_range (uniform_weights nactions) ->
  exists (i : Z) (g' : RNG),
    discreteProb (uniform_weights nactions) g = (inr i, g') /\
    sample space None g = (inr (Index i), g') /\
    0 <= i < nactions.
Proof.
  intros space Hpos Hrange.
  assert (Hsize : size space = nactions).
  { unfold space, SimpleActionSpace_init. simpl.
    rewrite length_map, np_arange_length. lia. }
  destruct (Hrange g) as [i [g' [Hdraw Hi]]].
  rewrite uniform_weights_length in Hi by lia.
  exists i, g'. split; [exact Hdraw |]. split; [| exact Hi].
  rewrite sample_run by apply SimpleActionSpace_init_nonneg.
  fold space. rewrite Hsize, Hdraw.
  unfold space. simpl.
  rewrite (getitem_map_Index _ _ _ (np_arange_getitem nactions i Hi)).
  reflexivity.
Qed.

End ActionSpaceProperties.

(** ** More concrete runs in the corridor *)

Lemma step_raising_leaves_engine_run :
  step 5 F64.zero Corridor.started
    = (inl IndexError,
       {| self := self Corridor.started; np_random := Corridor.tape 38 |}) /\
  self {| self := self Corridor.started; np_random := Corridor.tape 38 |}
    = self Corridor.started.
Proof.
  assert (Hstep : step 5 F64.zero Corridor.started
            = (inl IndexError,
               {| self := self Corridor.started;
                  np_random := Corridor.tape 38 |}))
    by (vm_compute; reflexivity).
  split; [exact Hstep |].
  exact (step_raising_leaves_engine _ _ _ _ _ Hstep).
Defined.

Lemma step_action_out_of_range_run :
  current_state (self Corridor.started) = Some 0 /\
  getitem (r (self Corridor.started)) 0
    = inr [Corridor.minus_one; Corridor.minus_one] /\
  (2 < - Z.of_nat (List.length [Corridor.minus_one; Corridor.minus_one]) \/
   Z.of_nat (List.length [Corridor.minus_one; Corridor.minus_one]) <= 2) /\
  step 2 Corridor.half Corridor.started =
    (inl IndexError,
     {| self := self Corridor.started;
        np_random := snd (randn (np_random Corridor.started)) |}).
Proof.
  assert (Hu : 2 < - Z.of_nat (List.length
                          [Corridor.minus_one; Corridor.minus_one]) \/
               Z.of_nat (List.length
                          [Corridor.minus_one; Corridor.minus_one]) <= 2)
    by (right; simpl; lia).
  split; [reflexivity |]. split; [reflexivity |]. split; [exact Hu |].
  exact (step_action_out_of_range Corridor.started 2 Corridor.half 0
           [Corridor.minus_one; Corridor.minus_one]
           eq_refl eq_refl Hu).
Defined.

Lemma step_returning_used_entries_run :
  current_state (self Corridor.started) = Some 0 /\
  exists (x : step_result) (w' : World),
    step 1 Corridor.half Corridor.started = (inr x, w') /\
    exists (rsu z : float) (row : list float) (g1 : RNG),
      getitem2 (r (self Corridor.started)) 0 1 = inr rsu /\
      getitem2 (P (self Corridor.started)) 0 1 = inr row /\
      randn (np_random Corridor.started) = (z, g1) /\
      discreteProb row g1 = (inr (res_next_state x), np_random w') /\
      state_transition_probabilities (res_info x) = row /\
      reward_noise_value (res_info x) = F64.mul Corridor.half z /\
      res_reward x = F64.add rsu (reward_noise_value (res_info x)).
Proof.
  assert (Hcs : current_state (self Corridor.started) = Some 0)
    by reflexivity.
  split; [exact Hcs |].
  destruct (step 1 Corridor.half Corridor.started) as [[e | x] w'] eqn:Hstep;
    [vm_compute in Hstep; discriminate |].
  exists x, w'. split; [reflexivity |].
  exact (step_returning_used_entries _ _ _ _ _ _ Hcs Hstep).
Defined.

Lemma step_ignores_bookkeeping_run :
  P (self Corridor.started) = P (self Rooms.elsewhere) /\
  r (self Corridor.started) = r (self Rooms.elsewhere) /\
  current_state (self Corridor.started)
    = current_state (self Rooms.elsewhere) /\
  np_random Corridor.started = np_random Rooms.elsewhere /\
  terminal_states (self Corridor.started)
    <> terminal_states (self Rooms.elsewhere) /\
  transition_of (fst (step 1 Corridor.half Corridor.started))
    = transition_of (fst (step 1 Corridor.half Rooms.elsewhere)) /\
  np_random (snd (step 1 Corridor.half Corridor.started))
    = np_random (snd (step 1 Corridor.half Rooms.elsewhere)).
Proof.
  repeat (split; [reflexivity |]).
  split; [vm_compute; discriminate |].
  apply (step_ignores_bookkeeping Corridor.started Rooms.elsewhere 1
           Corridor.half); reflexivity.
Defined.

Lemma step_negative_action_wraps_run :
  current_state (self Corridor.started) = Some 0 /\
  getitem (r (self Corridor.started)) 0
    = inr [Corridor.minus_one; Corridor.minus_one] /\
  getitem (P (self Corridor.started)) 0
    = inr [Corridor.onehot 0; Corridor.onehot 1] /\
  List.length [Corridor.onehot 0; Corridor.onehot 1]
    = List.length [Corridor.minus_one; Corridor.minus_one] /\
  - Z.of_nat (List.length [Corridor.minus_one; Corridor.minus_one]) <= -1 < 0
  /\
  step (-1) F64.zero Corridor.started
    = step (-1 + Z.of_nat (List.length
                             [Corridor.minus_one; Corridor.minus_one]))
        F64.zero Corridor.started.
Proof.
  assert (Hu : - Z.of_nat (List.length
                             [Corridor.minus_one; Corridor.minus_one])
               <= -1 < 0) by (simpl; lia).
  repeat (split; [reflexivity |]). split; [exact Hu |].
  exact (step_negative_action_wraps Corridor.started (-1) F64.zero 0
           [Corridor.minus_one; Corridor.minus_one]
           [Corridor.onehot 0; Corridor.onehot 1]
           eq_refl eq_refl eq_refl eq_refl Hu).
Defined.

Lemma timestep_counts_steps_since_reset_run :
  reset false Corridor.initial = (inr (Some 0), Corridor.started) /\
  episode (Corridor.stay 12) Corridor.started
    = (inr (Corridor.trace 12), Corridor.after 12) /\
  timestep (self (Corridor.after 12))
    = Z.of_nat (List.length (Corridor.stay 12)) /\
  same_configuration (self Corridor.initial) (self (Corridor.after 12)).
Proof.
  assert (Hreset : reset false Corridor.initial
                   = (inr (Some 0), Corridor.started))
    by (vm_compute; reflexivity).
  assert (Hrun : episode (Corridor.stay 12) Corridor.started
                 = (inr (Corridor.trace 12), Corridor.after 12))
    by (vm_compute; reflexivity).
  split; [exact Hreset |]. split; [exact Hrun |].
  exact (timestep_counts_steps_since_reset _ _ _ _ _ _ _ Hreset Hrun).
Defined.

Lemma reset_keeps_configuration_run :
  fst (reset true (Rooms.declared 0)) = inl ValueError /\
  self (snd (reset true (Rooms.declared 0))) = self (Rooms.declared 0).
Proof.
  assert (Hraise : fst (reset true (Rooms.declared 0)) = inl ValueError)
    by reflexivity.
  split; [exact Hraise |].
  exact (proj2 (proj2 (reset_keeps_configuration (Rooms.declared 0) true))
           ValueError Hraise).
Defined.

Lemma reset_uniform_too_few_states_run :
  nb_states (self (Rooms.declared 0)) <= 0 /\
  reset true (Rooms.declared 0) = (inl ValueError, Rooms.declared 0) /\
  nb_states (self (Rooms.declared 1)) = 1 /\
  reset true (Rooms.declared 1) =
    match discreteProb [] (np_random (Rooms.declared 1)) with
    | (inl e, g) =>
        (inl e, {| self := self (Rooms.declared 1); np_random := g |})
    | (inr s, g) =>
        (inr (Some s),
         {| self := restarted (self (Rooms.declared 1)) s; np_random := g |})
    end.
Proof.
  assert (Hzero : nb_states (self (Rooms.declared 0)) <= 0)
    by (simpl; lia).
  split; [exact Hzero |]. split; [| split; [reflexivity |]].
  - exact (proj1 (reset_uniform_too_few_states (Rooms.declared 0)) Hzero).
  - exact (proj2 (reset_uniform_too_few_states (Rooms.declared 1)) eq_refl).
Defined.

Lemma reset_forgets_episode_run :
  same_configuration (self Rooms.midway) (self Corridor.initial) /\
  plotter (self Corridor.initial) = plotter (self Rooms.midway) /\
  np_random Rooms.midway = np_random Corridor.initial /\
  timestep (self Rooms.midway) = 12 /\
  fst (reset false Rooms.midway) = fst (reset false Corridor.initial) /\
  (forall v, fst (reset false Rooms.midway) = inr v ->
     snd (reset false Rooms.midway) = snd (reset false Corridor.initial)).
Proof.
  assert (Hcfg : same_configuration (self Rooms.midway)
                   (self Corridor.initial))
    by (unfold same_configuration; repeat split; vm_compute; reflexivity).
  assert (Hpl : plotter (self Corridor.initial) = plotter (self Rooms.midway))
    by (vm_compute; reflexivity).
  assert (Hg : np_random Rooms.midway = np_random Corridor.initial)
    by reflexivity.
  split; [exact Hcfg |]. split; [exact Hpl |]. split; [exact Hg |].
  split; [vm_compute; reflexivity |].
  exact (reset_forgets_episode Rooms.midway Corridor.initial false
           Hcfg Hpl Hg).
Defined.

Lemma fresh_engine_not_done_run :
  Corridor.engine 11 = inr Corridor.fresh /\
  done Corridor.initial = (inr false, Corridor.initial).
Proof.
  assert (Hinit : Corridor.engine 11 = inr Corridor.fresh) by reflexivity.
  split; [exact Hinit |].
  exact (proj1 (fresh_engine_not_done _ _ _ _ _ _ _ _ _ _ _
                  (Corridor.tape 40) Hinit)).
Defined.

Lemma action_space_construction_run :
  [Named "stay"; Named "right"]%string <> @nil (action string) /\
  Corridor.space
    = {| actions := [Named "stay"; Named "right"]%string; size := 2 |} /\
  0 <= 3 < 4 /\
  getitem (actions Rooms.counted) 3 = inr (Index 3).
Proof.
  assert (Hl : [Named "stay"; Named "right"]%string <> @nil (action string))
    by discriminate.
  assert (Hi : 0 <= 3 < 4) by lia.
  split; [exact Hl |]. split; [| split; [exact Hi |]].
  - exact (proj1 (action_space_construction
                    [Named "stay"; Named "right"]%string 0) Hl).
  - exact (proj2 (proj2 (proj2 (action_space_construction
                                  (Label := string) [] 4))) 3 Hi).
Defined.

Lemma sample_follows_sampler_index_run :
  discreteProb [F64.zero; F64.zero; F64.one] (Corridor.tape 3)
    = (inr 2, Corridor.tape 2) /\
  (2 < - size Corridor.space \/ size Corridor.space <= 2) /\
  sample Corridor.space (Some [F64.zero; F64.zero; F64.one])
    (Corridor.tape 3) = (inl IndexError, Corridor.tape 2).
Proof.
  assert (Hdraw : discreteProb [F64.zero; F64.zero; F64.one]
                    (Corridor.tape 3) = (inr 2, Corridor.tape 2))
    by reflexivity.
  assert (Hi : 2 < - size Corridor.space \/ size Corridor.space <= 2)
    by (right; simpl; lia).
  split; [exact Hdraw |]. split; [exact Hi |].
  exact (proj2 (proj2 (sample_follows_sampler_index
                         (Some [Named "stay"; Named "right"]%string) 0
                         (Some [F64.zero; F64.zero; F64.one])
                         (Corridor.tape 3) (Corridor.tape 2) 2 Hdraw)) Hi).
Defined.

Lemma sample_empty_space_raises_run :
  size Rooms.nobody = 0 /\
  exists e,
    fst (sample Rooms.nobody None (Corridor.tape 3)) = inl e /\
    (forall index g',
       discreteProb [] (Corridor.tape 3) = (inr index, g') ->
       e = IndexError).
Proof.
  assert (Hzero : size Rooms.nobody = 0) by reflexivity.
  split; [exact Hzero |].
  exact (sample_empty_space_raises (Label := string) (Some []) 0 None
           (Corridor.tape 3) Hzero).
Defined.

Lemma sample_counted_space_in_range_run :
  0 < 4 /\
  sampler_in_range (uniform_weights 4) /\
  exists (i : Z) (g' : RNG),
    discreteProb (uniform_weights 4) (Corridor.tape 3) = (inr i, g') /\
    sample Rooms.counted None (Corridor.tape 3)
      = (inr (Index i), g') /\
    0 <= i < 4.
Proof.
  assert (Hpos : 0 < 4) by lia.
  assert (Hrange : sampler_in_range (uniform_weights 4))
    by (apply inverse_cdf_in_range; discriminate).
  split; [exact Hpos |]. split; [exact Hrange |].
  exact (sample_counted_space_in_range (Label := string) 4
           (Corridor.tape 3) Hpos Hrange).
Defined.
